(** * Digiforge: the streaming temperature-anomaly detector

    A shallow embedding of [src/Warning_system.py] and [src/temperature.py].
    Both scripts keep one bounded window of recent temperatures per machine
    in the module-level dictionary [machine_temp_data] and classify every
    new reading with an absolute threshold and a one-sided z-score test.

    Numbers.  Python temperatures are modelled as real numbers: [+], [-],
    [/], [sqrt] and the comparisons are the exact ones of [R].  The
    exceptions the arithmetic can raise are kept ([ZeroDivisionError] for
    [/], [StatisticsError] for [statistics.mean] and [statistics.stdev] on
    too little data).  IEEE rounding, infinities and NaN are outside the
    model, and with them the [OverflowError] that [statistics.stdev] raises
    when the deviation of finite floats exceeds the float range; C2 below
    locates such a window.

    State.  The dictionary is a [gmap string deque]; a deque object is
    reached through the key under which the dictionary stores it, so that
    [readings.append(temp)] is visible to every later read of
    [machine_temp_data[machine_id]], as it is in Python.  The wall clock
    read by [time.time()] is an argument of the call. *)

From Stdlib Require Import Reals Lra Lia ZArith.
From stdpp Require Import gmap strings list.

Open Scope R_scope.

(** ** Python primitives used by the two scripts *)

Module Py.

(** Exceptions that the modelled fragment can raise. *)
Inductive exn : Type :=
| KeyError (key : string)
| StatisticsError
| ZeroDivisionError
| TypeError
| AttributeError
| JSONDecodeError.

Inductive result (A : Type) : Type :=
| Ok (a : A)
| Raise (e : exn).
Arguments Ok {A} a.
Arguments Raise {A} e.

(** Values that occur in the dictionaries of the scripts. *)
#[warnings="-register-all"]
Inductive pyval : Type :=
| VNone
| VBool (b : bool)
| VNum (x : R)
| VStr (s : string)
| VDict (d : list (string * pyval)).

(** A [dict] with string keys, in insertion order. *)
Abbreviation pydict := (list (string * pyval)).

(** [d[k]] *)
Fixpoint dict_getitem (d : pydict) (k : string) : result pyval :=
  match d with
  | [] => Raise (KeyError k)
  | (k', v) :: d' => if String.eqb k' k then Ok v else dict_getitem d' k
  end.

(** [d.get(k, dflt)]; [d.get(k)] is [dict_get d k VNone]. *)
Definition dict_get (d : pydict) (k : string) (dflt : pyval) : pyval :=
  match dict_getitem d k with
  | Ok v => v
  | Raise _ => dflt
  end.

(** [d[k] = v]: an existing key keeps its position, a new one goes last. *)
Fixpoint dict_setitem (d : pydict) (k : string) (v : pyval) : pydict :=
  match d with
  | [] => [(k, v)]
  | (k', v') :: d' =>
      if String.eqb k' k then (k', v) :: d' else (k', v') :: dict_setitem d' k v
  end.

(** [list(d.keys())] *)
Definition dict_keys (d : pydict) : list string := map fst d.

(** [collections.deque(maxlen=n)]: the bound travels with the object. *)
Record deque : Type := Deque { maxlen : nat; items : list R }.

Definition deque_new (n : nat) : deque := Deque n [].

(** [d.append(x)]: the value goes to the right end and, when the deque is
    then longer than [maxlen], one value is dropped from the left end. *)
Definition deque_append (d : deque) (x : R) : deque :=
  let xs := items d ++ [x] in
  Deque (maxlen d) (if (maxlen d <? length xs)%nat then tail xs else xs).

(** Comparisons of numbers, as booleans. *)
Definition gtb (x y : R) : bool := if Rlt_dec y x then true else false.
Definition eqb (x y : R) : bool := if Req_dec_T x y then true else false.

(** [sum(xs)], exact. *)
Fixpoint fsum (xs : list R) : R :=
  match xs with
  | [] => 0
  | x :: xs' => x + fsum xs'
  end.

(** [statistics.mean(data)]: the arithmetic mean; empty data raises. *)
Definition mean (data : list R) : result R :=
  match data with
  | [] => Raise StatisticsError
  | _ => Ok (fsum data / INR (length data))
  end.

(** Sum of the squared deviations from [c]. *)
Definition sum_sq_dev (c : R) (data : list R) : R :=
  fsum (map (fun x => (x - c) * (x - c)) data).

(** [statistics.stdev(data)]: the square root of the sample variance,
    which divides by [n - 1]; fewer than two values raise. *)
Definition stdev (data : list R) : result R :=
  match data with
  | [] | [_] => Raise StatisticsError
  | _ =>
      let c := fsum data / INR (length data) in
      Ok (sqrt (sum_sq_dev c data / (INR (length data) - 1)))
  end.

(** [x / y] on numbers. *)
Definition truediv (x y : R) : result R :=
  if eqb y 0 then Raise ZeroDivisionError else Ok (x / y).

(** The integer nearest to [x], a tie going to the even neighbour. *)
Definition round_half_even (x : R) : Z :=
  let f := Int_part x in
  let r := x - IZR f in
  if Rlt_dec r (1 / 2) then f
  else if Rlt_dec (1 / 2) r then (f + 1)%Z
  else if Z.even f then f else (f + 1)%Z.

(** [round(x, ndigits)] for [ndigits >= 0]. *)
Definition round (x : R) (ndigits : nat) : R :=
  IZR (round_half_even (x * 10 ^ ndigits)) / 10 ^ ndigits.

(** *** State and exceptions

    A computation runs on the dictionary [machine_temp_data] and either
    returns a value or raises; the dictionary it leaves behind is kept in
    both cases, since Python does not roll back a mutation when a later
    statement raises. *)

Abbreviation store := (gmap string deque).

Definition M (A : Type) : Type := store -> result A * store.

Definition ret {A} (a : A) : M A := fun st => (Ok a, st).

Definition raise {A} (e : exn) : M A := fun st => (Raise e, st).

Definition bind {A B} (c : M A) (k : A -> M B) : M B :=
  fun st =>
    match c st with
    | (Ok a, st') => k a st'
    | (Raise e, st') => (Raise e, st')
    end.

Definition lift {A} (r : result A) : M A := fun st => (r, st).

(** A reference to a deque object held by the dictionary: the key it is
    stored under.  No deque is stored under two keys in either script. *)
Abbreviation ref := string.

(** [k in machine_temp_data] *)
Definition dict_contains (k : string) : M bool :=
  fun st => (Ok (bool_decide (is_Some (st !! k))), st).

(** [machine_temp_data[k] = d] *)
Definition dict_store (k : string) (d : deque) : M unit :=
  fun st => (Ok tt, <[k := d]> st).

(** [machine_temp_data[k]]: the deque object itself, not a copy. *)
Definition dict_lookup (k : string) : M ref :=
  fun st =>
    match st !! k with
    | Some _ => (Ok k, st)
    | None => (Raise (KeyError k), st)
    end.

(** Reading the object behind a reference. *)
Definition deref (r : ref) : M deque :=
  fun st =>
    match st !! r with
    | Some d => (Ok d, st)
    | None => (Raise (KeyError r), st)
    end.

(** [r.append(x)], in place. *)
Definition append (r : ref) (x : R) : M unit :=
  fun st =>
    match st !! r with
    | Some d => (Ok tt, <[r := deque_append d x]> st)
    | None => (Raise (KeyError r), st)
    end.

(** [len(r)] *)
Definition len (r : ref) : M nat :=
  bind (deref r) (fun d => ret (length (items d))).

(** [statistics.mean(r)] and [statistics.stdev(r)] *)
Definition statistics_mean (r : ref) : M R :=
  bind (deref r) (fun d => lift (mean (items d))).

Definition statistics_stdev (r : ref) : M R :=
  bind (deref r) (fun d => lift (stdev (items d))).

(** [x < y] on numbers. *)
Definition ltb (x y : R) : bool := if Rlt_dec x y then true else false.

(** *** The drivers: random numbers, standard output

    [random.random()] takes the next number of a stream; [draws g i] is the
    [i]-th number of the stream behind [g] and [drawn g] counts the numbers
    taken so far.  [random.uniform(a, b)] is [a + (b - a) * random()], as
    in CPython. *)

Record rng : Type := Rng { draws : nat -> R; drawn : nat }.

Definition random_random (g : rng) : R * rng :=
  (draws g (drawn g), Rng (draws g) (S (drawn g))).

Definition random_uniform (a b : R) (g : rng) : R * rng :=
  let (u, g') := random_random g in (a + (b - a) * u, g').

(** What a script writes to standard output: its start-up line, the line
    reporting a skipped input, or the JSON text of an alert. *)
Inductive printed : Type :=
| Banner
| Skipped
| Alert (alert : pydict).

(** The state a driver runs on: the dictionary of windows, what was
    printed so far, and the random generator.  What was printed stays
    printed when a later statement raises. *)
Record world : Type :=
  World { windows : store; stdout : list printed; generator : rng }.

Definition W (A : Type) : Type := world -> result A * world.

Definition wret {A} (a : A) : W A := fun w => (Ok a, w).

Definition wbind {A B} (c : W A) (k : A -> W B) : W B :=
  fun w =>
    match c w with
    | (Ok a, w') => k a w'
    | (Raise e, w') => (Raise e, w')
    end.

(** A computation on the dictionary, run inside a driver. *)
Definition on_windows {A} (c : M A) : W A :=
  fun w =>
    let (r, st) := c (windows w) in
    (r, World st (stdout w) (generator w)).

(** [print(...)] *)
Definition print (p : printed) : W unit :=
  fun w => (Ok tt, World (windows w) (stdout w ++ [p]) (generator w)).

(** A computation that takes random numbers. *)
Definition on_generator {A} (f : rng -> A * rng) : W A :=
  fun w =>
    let (a, g) := f (generator w) in
    (Ok a, World (windows w) (stdout w) g).

(** [for x in xs: body(x)] *)
Fixpoint for_each {A} (xs : list A) (body : A -> W unit) : W unit :=
  match xs with
  | [] => wret tt
  | x :: xs' => wbind (body x) (fun _ => for_each xs' body)
  end.

End Py.

Import Py.

Notation "x <- c ;; k" := (bind c (fun x => k))
  (at level 100, c at next level, right associativity).
Notation "c ;;; k" := (bind c (fun _ => k))
  (at level 100, right associativity).
Notation "x <~ c ;; k" := (wbind c (fun x => k))
  (at level 100, c at next level, right associativity).
Notation "c ;;~ k" := (wbind c (fun _ => k))
  (at level 100, right associativity).

(** The value a call returns: [(is_anomaly, anomaly_data)], where
    [anomaly_data] is [None] or the dictionary describing the anomaly. *)
Abbreviation verdict := (bool * option pydict)%type.

(** ** [src/Warning_system.py] *)

Module Warning_system.

Definition WINDOW_SIZE : nat := 10.
Definition TEMP_THRESHOLD : R := 75.
Definition Z_SCORE_LIMIT : R := 2.5.

(** [machine_temp_data = {}] at import time. *)
Definition machine_temp_data : store := ∅.

Definition detect_anomaly (machine_id : string) (temp : R) (now : R) : M verdict :=
  known <- dict_contains machine_id ;;
  (if negb known then dict_store machine_id (deque_new WINDOW_SIZE) else ret tt) ;;;
  readings <- dict_lookup machine_id ;;
  append readings temp ;;;
  n <- len readings ;;
  if (n <? 5)%nat then ret (false, None) else
  mean <- statistics_mean readings ;;
  stdev <- statistics_stdev readings ;;
  if eqb stdev 0 then ret (false, None) else
  z_score <- lift (truediv (temp - mean) stdev) ;;
  if gtb temp TEMP_THRESHOLD || gtb z_score Z_SCORE_LIMIT then
    let reason := if gtb temp TEMP_THRESHOLD then "HIGH_TEMP" else "Z_SCORE_SPIKE" in
    ret (true, Some [ ("machine_id", VStr machine_id);
                      ("temperature", VNum temp);
                      ("z_score", VNum (round z_score 2));
                      ("mean_temp", VNum (round mean 2));
                      ("anomaly_reason", VStr reason);
                      ("timestamp", VNum now) ]%string)
  else ret (false, None).

(** [generate_alert]: builds the alert and prints and logs its JSON text.
    The model returns the record that is serialised. *)
Definition generate_alert (anomaly_data : pydict) : result pydict :=
  match dict_getitem anomaly_data "machine_id",
        dict_getitem anomaly_data "temperature",
        dict_getitem anomaly_data "z_score",
        dict_getitem anomaly_data "anomaly_reason",
        dict_getitem anomaly_data "timestamp" with
  | Ok machine, Ok temperature, Ok z_score, Ok reason, Ok timestamp =>
      Ok [ ("type", VStr "TEMP_ANOMALY");
           ("machine", machine);
           ("temperature", temperature);
           ("z_score", z_score);
           ("reason", reason);
           ("timestamp", timestamp) ]%string
  | Raise e, _, _, _, _ => Raise e
  | _, Raise e, _, _, _ => Raise e
  | _, _, Raise e, _, _ => Raise e
  | _, _, _, Raise e, _ => Raise e
  | _, _, _, _, Raise e => Raise e
  end.

End Warning_system.

Module Warning_system_driver.
Import Warning_system.

(** [process_simulation_output], from the outcome of [json.loads(sim_json)]
    on.  The dictionary of windows is typed (string keys, numeric values):
    a [spindle_temp] that is not a number or a [machine] that is not a
    string ends the modelled call with [TypeError].  The value returned is
    the alert that was printed, if any; a line that does not parse is
    caught and skipped. *)
Definition process_simulation_output (parsed : result pyval) (now : R)
  : M (option pydict) :=
  match parsed with
  | Raise JSONDecodeError => ret None
  | Raise e => raise e
  | Ok (VDict data) =>
      let temp := dict_get data "spindle_temp" VNone in
      let machine_id := dict_get data "machine" (VStr "CNC_Mill_1") in
      match temp, machine_id with
      | VNone, _ => ret None
      | VNum temp, VStr machine_id =>
          out <- detect_anomaly machine_id temp now ;;
          match out with
          | (true, Some anomaly_data) =>
              let merged :=
                dict_setitem anomaly_data "cycle_id" (dict_get data "cycle_id" VNone) in
              alert <- lift (generate_alert merged) ;;
              ret (Some alert)
          | (true, None) => raise TypeError
          | (false, _) => ret None
          end
      | _, _ => raise TypeError
      end
  | Ok _ => raise AttributeError
  end.

(** One turn of the loop of [main]: the line is processed, and what
    [process_simulation_output] printed goes to standard output.  [parsed]
    is the outcome of [json.loads(line.strip())]. *)
Definition process_line (parsed : result pyval) (now : R) : W unit :=
  alert <~ on_windows (process_simulation_output parsed now) ;;
  match alert, parsed with
  | Some alert, _ => print (Alert alert)
  | None, Raise JSONDecodeError => print Skipped
  | None, _ => wret tt
  end.

(** [main]: the lines of standard input in order, each with the clock value
    at its turn.  An exception that [process_simulation_output] does not
    catch ends the loop. *)
Definition main (lines : list (result pyval * R)) : W unit :=
  print Banner ;;~
  for_each lines (fun line => process_line line.1 line.2).

End Warning_system_driver.

(** ** [src/temperature.py]

    [simulate_temperature] draws the temperatures at random and
    [run_monitoring] hands one to [detect_anomaly] for every machine of
    [MACHINES] in every cycle; the model takes the temperatures as given. *)

Module temperature.

Definition WINDOW_SIZE : nat := 10.
Definition TEMP_THRESHOLD : R := 75.
Definition Z_SCORE_LIMIT : R := 2.5.

Definition MACHINES : list string := ["Lathe_01"; "Milling_02"; "Drill_03"]%string.

(** [{machine: deque(maxlen=WINDOW_SIZE) for machine in MACHINES}] *)
Definition machine_temp_data : store :=
  list_to_map (map (fun machine => (machine, deque_new WINDOW_SIZE)) MACHINES).

Definition detect_anomaly (machine : string) (temp : R) (now : R) : M verdict :=
  readings <- dict_lookup machine ;;
  append readings temp ;;;
  n <- len readings ;;
  if (n <? 5)%nat then ret (false, None) else
  mean <- statistics_mean readings ;;
  stdev <- statistics_stdev readings ;;
  if eqb stdev 0 then ret (false, None) else
  z_score <- lift (truediv (temp - mean) stdev) ;;
  if gtb temp TEMP_THRESHOLD || gtb z_score Z_SCORE_LIMIT then
    let reason := if gtb temp TEMP_THRESHOLD then "HIGH_TEMP" else "Z_SCORE_SPIKE" in
    ret (true, Some [ ("machine_id", VStr machine);
                      ("temperature", VNum temp);
                      ("z_score", VNum (round z_score 2));
                      ("mean_temp", VNum (round mean 2));
                      ("anomaly_reason", VStr reason);
                      ("timestamp", VNum now) ]%string)
  else ret (false, None).

Definition generate_alert (anomaly_data : pydict) : result pydict :=
  match dict_getitem anomaly_data "machine_id",
        dict_getitem anomaly_data "temperature",
        dict_getitem anomaly_data "z_score",
        dict_getitem anomaly_data "anomaly_reason",
        dict_getitem anomaly_data "timestamp" with
  | Ok machine, Ok temperature, Ok z_score, Ok reason, Ok timestamp =>
      Ok [ ("type", VStr "TEMP_ANOMALY");
           ("machine", machine);
           ("temperature", temperature);
           ("z_score", z_score);
           ("reason", reason);
           ("timestamp", timestamp) ]%string
  | Raise e, _, _, _, _ => Raise e
  | _, Raise e, _, _, _ => Raise e
  | _, _, Raise e, _, _ => Raise e
  | _, _, _, Raise e, _ => Raise e
  | _, _, _, _, Raise e => Raise e
  end.

(** [simulate_temperature]: a base temperature between 50 and 65 and, with
    one chance in ten, a spike of 15 to 30 degrees on top.  The argument
    is not used. *)
Definition simulate_temperature (machine : string) (g : rng) : R * rng :=
  let (base, g1) := random_uniform 50 65 g in
  let (chance, g2) := random_random g1 in
  if ltb chance 0.1 then
    let (spike, g3) := random_uniform 15 30 g2 in
    (round (base + spike) 2, g3)
  else (round base 2, g2).

(** The body of the inner loop of [run_monitoring]. *)
Definition monitor (machine : string) (now : R) : W unit :=
  temp <~ on_generator (simulate_temperature machine) ;;
  out <~ on_windows (detect_anomaly machine temp now) ;;
  match out with
  | (true, Some data) =>
      alert <~ on_windows (lift (generate_alert data)) ;;
      print (Alert alert)
  | (true, None) => fun w => (Raise TypeError, w)
  | (false, _) => wret tt
  end.

(** [run_monitoring(cycles, delay)]: [clock c machine] is the clock value
    at the call for [machine] in cycle [c]; the sleep between two cycles
    only moves the clock. *)
Definition run_monitoring (cycles : nat) (clock : nat -> string -> R) : W unit :=
  print Banner ;;~
  for_each (seq 0 cycles) (fun c =>
    for_each MACHINES (fun machine => monitor machine (clock c machine))).

End temperature.

(** ** A stream of readings

    Both scripts call [detect_anomaly] once per reading, in arrival order
    ([main] for every line of standard input, [run_monitoring] for every
    machine in every cycle).  A reading is the machine, the temperature and
    the clock value at the call. *)

Record reading : Type := Reading { source : string; value : R; clock : R }.

Section Stream.

Variable detect : string -> R -> R -> M verdict.

(** The calls for [rs] in order from [st]: what each call returned or
    raised, and the dictionary after the last one. *)
Fixpoint feed (rs : list reading) (st : store) : list (result verdict) * store :=
  match rs with
  | [] => ([], st)
  | r :: rs' =>
      let (out, st1) := detect (source r) (value r) (clock r) st in
      let (outs, st2) := feed rs' st1 in
      (out :: outs, st2)
  end.

End Stream.

(** The readings of one source, and their temperatures. *)
Definition of_source (m : string) (rs : list reading) : list reading :=
  filter (fun r => source r = m) rs.

Definition temps (rs : list reading) : list R := map value rs.

(** The outcomes that belong to the readings of one source. *)
Fixpoint outcomes_of {A} (m : string) (rs : list reading) (outs : list A) : list A :=
  match rs, outs with
  | r :: rs', o :: outs' =>
      if decide (source r = m) then o :: outcomes_of m rs' outs'
      else outcomes_of m rs' outs'
  | _, _ => []
  end.

(** ** The outcome of a call in closed form

    [judge] is the verdict as a function of the window as it stands after
    the append; [detect_anomaly] is shown below to return exactly it. *)

Definition mean_of (w : list R) : R := fsum w / INR (length w).

Definition stdev_of (w : list R) : R :=
  sqrt (sum_sq_dev (mean_of w) w / (INR (length w) - 1)).

Definition judge (machine_id : string) (w : list R) (temp now : R) : verdict :=
  if (length w <? 5)%nat then (false, None)
  else if eqb (stdev_of w) 0 then (false, None)
  else
    let z_score := (temp - mean_of w) / stdev_of w in
    if gtb temp 75 || gtb z_score 2.5 then
      (true, Some [ ("machine_id", VStr machine_id);
                    ("temperature", VNum temp);
                    ("z_score", VNum (round z_score 2));
                    ("mean_temp", VNum (round (mean_of w) 2));
                    ("anomaly_reason",
                      VStr (if gtb temp 75 then "HIGH_TEMP" else "Z_SCORE_SPIKE"));
                    ("timestamp", VNum now) ]%string)
    else (false, None).

(** The window of a source before a call of [Warning_system.detect_anomaly]:
    a source not seen yet has the empty one. *)
Definition window (st : store) (machine_id : string) : deque :=
  default (deque_new Warning_system.WINDOW_SIZE) (st !! machine_id).

(** The [n] most recent values of [vs], oldest first. *)
Definition most_recent (n : nat) (vs : list R) : list R :=
  drop (length vs - n) vs.

(** The window [d] of source [m] holds the [n] most recent temperatures of
    [m] in the history [hist], and is bounded by [n]. *)
Definition shows (n : nat) (hist : list reading) (m : string) (d : deque) : Prop :=
  d = Deque n (most_recent n (temps (of_source m hist))).

(** ** The two scripts side by side

    The claims are about [detect_anomaly] of either file; [both P] states
    [P] of the two of them. *)

Record script : Type := Script {
  detect_anomaly : string -> R -> R -> M verdict;
  TEMP_THRESHOLD : R;
  Z_SCORE_LIMIT : R;
  WINDOW_SIZE : nat;
  machine_temp_data : store
}.

Definition Warning_system_py : script :=
  Script Warning_system.detect_anomaly Warning_system.TEMP_THRESHOLD
    Warning_system.Z_SCORE_LIMIT Warning_system.WINDOW_SIZE
    Warning_system.machine_temp_data.

Definition temperature_py : script :=
  Script temperature.detect_anomaly temperature.TEMP_THRESHOLD
    temperature.Z_SCORE_LIMIT temperature.WINDOW_SIZE
    temperature.machine_temp_data.

Definition both (P : script -> Prop) : Prop :=
  P Warning_system_py /\ P temperature_py.

(** [anomaly_data["anomaly_reason"]] *)
Definition reason_of (anomaly_data : pydict) : result pyval :=
  dict_getitem anomaly_data "anomaly_reason".

(** ** Comparing verdicts

    Two verdicts are the same apart from the machine and the timestamp when
    both calls returned, the booleans agree, and the two dictionaries, if
    any, agree on the temperature, the rounded z-score, the rounded mean and
    the reason. *)

Definition compared_keys : list string :=
  ["temperature"; "z_score"; "mean_temp"; "anomaly_reason"]%string.

Definition same_finding (o1 o2 : option pydict) : Prop :=
  match o1, o2 with
  | None, None => True
  | Some f1, Some f2 =>
      forall k, k ∈ compared_keys -> dict_getitem f1 k = dict_getitem f2 k
  | _, _ => False
  end.

Definition same_verdict (r1 r2 : result verdict) : Prop :=
  match r1, r2 with
  | Ok (b1, o1), Ok (b2, o2) => b1 = b2 /\ same_finding o1 o2
  | _, _ => False
  end.

(** [r] is a multiple of a hundredth, and a nearest one to [x]. *)
Definition to_2_places (r x : R) : Prop :=
  (exists k : Z, r = IZR k / 100) /\ Rabs (r - x) <= 1 / 200.

(** ** Reading the drivers *)

(** The keys [generate_alert] reads, in the order it reads them. *)
Definition required_keys : list string :=
  ["machine_id"; "temperature"; "z_score"; "anomaly_reason"; "timestamp"]%string.

(** The keys of every alert. *)
Definition alert_keys : list string :=
  ["type"; "machine"; "temperature"; "z_score"; "reason"; "timestamp"]%string.

(** The alerts among what was printed, in order. *)
Definition alerts (out : list printed) : list pydict :=
  omap (fun p => match p with Alert a => Some a | _ => None end) out.

(** The alert a call of [detect_anomaly] leads to, if any. *)
Definition alert_of (out : result verdict) : option pydict :=
  match out with
  | Ok (true, Some anomaly_data) =>
      match Warning_system.generate_alert anomaly_data with
      | Ok alert => Some alert
      | Raise _ => None
      end
  | _ => None
  end.

(** The reading a line of [main] carries, if any: the temperature, the
    machine or the fallback name, and the clock value at its turn. *)
Definition reading_of_line (line : result pyval * R) : option reading :=
  match line.1 with
  | Ok (VDict data) =>
      match dict_get data "spindle_temp" VNone,
            dict_get data "machine" (VStr "CNC_Mill_1") with
      | VNum temp, VStr machine_id => Some (Reading machine_id temp line.2)
      | _, _ => None
      end
  | _ => None
  end.

(** Lines on which [json.loads] raises [JSONDecodeError], lines without a
    temperature, and lines with a numeric temperature and a machine name
    (or none). *)
Definition typed_line (line : result pyval * R) : Prop :=
  match line.1 with
  | Raise JSONDecodeError => True
  | Ok (VDict data) =>
      match dict_get data "spindle_temp" VNone,
            dict_get data "machine" (VStr "CNC_Mill_1") with
      | VNone, _ => True
      | VNum _, VStr _ => True
      | _, _ => False
      end
  | _ => False
  end.

(** Numbers that [random.random()] returns: at least 0 and below 1. *)
Definition unit_draws (g : rng) : Prop := forall i, 0 <= draws g i < 1.

(** Every window of [st] holds values of the level of its source only. *)
Definition levelled (level : string -> R) (st : store) : Prop :=
  forall m d, st !! m = Some d -> Forall (eq (level m)) (items d).

(** After [k] cycles of [run_monitoring]: every machine of [ms] has a
    window, bounded by 10, that holds [k] values, or 10 once [k] is more. *)
Definition windows_hold (k : nat) (ms : list string) (st : store) : Prop :=
  forall m, m ∈ ms ->
    exists d, st !! m = Some d /\ maxlen d = 10%nat
              /\ length (items d) = Nat.min k 10.

(** ** Windows used as examples *)

(** Nine readings of 60 degrees. *)
Definition steady9 : list R := [60; 60; 60; 60; 60; 60; 60; 60; 60].

Definition steady_store : store := {[ "Lathe_01"%string := Deque 10 steady9 ]}.

(** Twelve readings of one machine, 1 to 12 degrees, with readings of another
    machine in between. *)
Definition twelve : list reading :=
  [ Reading "Lathe_01" 1 0; Reading "Lathe_01" 2 0; Reading "Drill_03" 50 0;
    Reading "Lathe_01" 3 0; Reading "Lathe_01" 4 0; Reading "Lathe_01" 5 0;
    Reading "Drill_03" 51 0; Reading "Lathe_01" 6 0; Reading "Lathe_01" 7 0;
    Reading "Lathe_01" 8 0; Reading "Lathe_01" 9 0; Reading "Lathe_01" 10 0;
    Reading "Lathe_01" 11 0; Reading "Lathe_01" 12 0 ]%string.

Definition steady_store_2 : store := {[ "Drill_03"%string := Deque 10 steady9 ]}.

(** A parsed line of the simulation: 120 degrees in cycle 7. *)
Definition spike_data : pydict :=
  [ ("machine", VStr "Lathe_01"); ("spindle_temp", VNum 120);
    ("cycle_id", VNum 7) ]%string.

(** Seven readings of 80 degrees from two machines. *)
Definition hot_readings : list reading :=
  [ Reading "Lathe_01" 80 0; Reading "Drill_03" 80 1; Reading "Lathe_01" 80 2;
    Reading "Lathe_01" 80 3; Reading "Lathe_01" 80 4; Reading "Lathe_01" 80 5;
    Reading "Lathe_01" 80 6 ]%string.

(** Three lines for [main]: one that does not parse, one without a
    temperature, one with a reading; and the state of a fresh process. *)
Definition sample_lines : list (result pyval * R) :=
  [ (Raise JSONDecodeError, 0);
    (Ok (VDict [("cycle_id", VNum 1)]%string), 1);
    (Ok (VDict [("machine", VStr "Lathe_01"); ("spindle_temp", VNum 60)]%string), 2) ].

Definition fresh_world (st : store) : world := World st [] (Rng (fun _ => 0) 0).

(** Three lines for a process whose window of "Lathe_01" holds nine
    readings of 60 degrees: one that does not parse, one without a
    temperature, and the reading of 120 degrees. *)
Definition spike_lines : list (result pyval * R) :=
  [ (Raise JSONDecodeError, 0);
    (Ok (VDict [("cycle_id", VNum 1)]%string), 1);
    (Ok (VDict spike_data), 2) ].

(** Binary64 numbers as reals: the unit of the top binade, [2 ^ 971]; the
    largest number a Python float holds, [(2 ^ 53 - 1) * 2 ^ 971]; and the
    float that the literal [1.7e308] denotes, [8517715530038134 * 2 ^ 971]. *)
Definition float_unit_Z : Z := Eval vm_compute in (2 ^ 971)%Z.

Definition float_unit : R := IZR float_unit_Z.

Definition float_max : R := 9007199254740991 * float_unit.

Definition huge : R := 8517715530038134 * float_unit.

(** Four readings of one machine, [1.7e308] and [-1.7e308] in turn. *)
Definition huge_store : store :=
  {[ "Lathe_01"%string := Deque 10 [huge; - huge; huge; - huge] ]}.

(** A generator whose second number calls for a spike, and a world in which
    the machine has sent nine readings of 60. *)
Definition spike_rng : rng :=
  Rng (fun i => if (i =? 1)%nat then 0 else 9 / 10) 0.

Definition spike_world : world := World steady_store [] spike_rng.

(** ** Basic facts about the primitives *)

Lemma gtb_true x y : gtb x y = true <-> y < x.
Proof. unfold gtb. destruct (Rlt_dec y x); split; intros; try done; lra. Qed.

Lemma gtb_false x y : gtb x y = false <-> x <= y.
Proof. unfold gtb. destruct (Rlt_dec y x); split; intros; try done; lra. Qed.

Lemma eqb_true x y : eqb x y = true <-> x = y.
Proof. unfold eqb. destruct (Req_dec_T x y); split; intros; done. Qed.

Lemma eqb_false x y : eqb x y = false <-> x <> y.
Proof. unfold eqb. destruct (Req_dec_T x y); split; intros; done. Qed.

Lemma mean_ok w : w <> [] -> mean w = Ok (mean_of w).
Proof. destruct w; [done | reflexivity]. Qed.

Lemma stdev_ok w : (2 <= length w)%nat -> stdev w = Ok (stdev_of w).
Proof. destruct w as [|x [|y w]]; simpl; intros; try lia. reflexivity. Qed.

Lemma truediv_ok x y : y <> 0 -> truediv x y = Ok (x / y).
Proof. intros H. unfold truediv. apply eqb_false in H. by rewrite H. Qed.

(** ** Every call in closed form *)

Lemma judge_after_append (machine_id : string) (d : deque) temp now (st : store) :
  st !! machine_id = Some d ->
  (append machine_id temp ;;;
   n <- len machine_id ;;
   if (n <? 5)%nat then ret (false, None) else
   mean <- statistics_mean machine_id ;;
   stdev <- statistics_stdev machine_id ;;
   if eqb stdev 0 then ret (false, None) else
   z_score <- lift (truediv (temp - mean) stdev) ;;
   if gtb temp 75 || gtb z_score 2.5 then
     let reason := if gtb temp 75 then "HIGH_TEMP" else "Z_SCORE_SPIKE" in
     ret (true, Some [ ("machine_id", VStr machine_id);
                       ("temperature", VNum temp);
                       ("z_score", VNum (round z_score 2));
                       ("mean_temp", VNum (round mean 2));
                       ("anomaly_reason", VStr reason);
                       ("timestamp", VNum now) ]%string)
   else ret (false, None)) st
  = (Ok (judge machine_id (items (deque_append d temp)) temp now),
     <[machine_id := deque_append d temp]> st).
Proof.
  intros Hd.
  set (d' := deque_append d temp).
  unfold bind at 1. unfold append. rewrite Hd. fold d'.
  unfold bind at 1. unfold len, bind at 1, deref. rewrite lookup_insert_eq.
  unfold ret at 1. unfold judge.
  destruct (length (items d') <? 5)%nat eqn:Hn; [reflexivity|].
  apply Nat.ltb_ge in Hn.
  unfold bind at 1. unfold statistics_mean, bind at 1, deref, lift at 1.
  rewrite lookup_insert_eq, mean_ok by (intros E; rewrite E in Hn; simpl in Hn; lia).
  unfold bind at 1. unfold statistics_stdev, bind at 1, deref, lift at 1.
  rewrite lookup_insert_eq, stdev_ok by lia.
  destruct (eqb (stdev_of (items d')) 0) eqn:Hsd; [reflexivity|].
  unfold bind at 1, lift at 1.
  rewrite truediv_ok by (by apply eqb_false).
  destruct (gtb temp 75 || gtb _ 2.5); reflexivity.
Qed.

Lemma Warning_system_run machine_id temp now (st : store) :
  Warning_system.detect_anomaly machine_id temp now st
  = (Ok (judge machine_id (items (deque_append (window st machine_id) temp)) temp now),
     <[machine_id := deque_append (window st machine_id) temp]> st).
Proof.
  unfold Warning_system.detect_anomaly, window.
  unfold Warning_system.TEMP_THRESHOLD, Warning_system.Z_SCORE_LIMIT.
  unfold bind at 1. unfold dict_contains.
  destruct (st !! machine_id) as [d|] eqn:Hd; simpl default.
  - rewrite bool_decide_eq_true_2 by eauto. simpl negb.
    unfold bind at 1. unfold ret at 1.
    unfold bind at 1. unfold dict_lookup. rewrite Hd.
    by apply judge_after_append.
  - rewrite bool_decide_eq_false_2 by (intros [? ?]; done). simpl negb.
    unfold bind at 1. unfold dict_store.
    unfold bind at 1. unfold dict_lookup. rewrite lookup_insert_eq.
    erewrite judge_after_append by apply lookup_insert_eq.
    by rewrite insert_insert_eq.
Qed.

Lemma temperature_run machine temp now (st : store) :
  temperature.detect_anomaly machine temp now st
  = match st !! machine with
    | Some d =>
        (Ok (judge machine (items (deque_append d temp)) temp now),
         <[machine := deque_append d temp]> st)
    | None => (Raise (KeyError machine), st)
    end.
Proof.
  unfold temperature.detect_anomaly.
  unfold temperature.TEMP_THRESHOLD, temperature.Z_SCORE_LIMIT.
  unfold bind at 1. unfold dict_lookup.
  destruct (st !! machine) as [d|] eqn:Hd; [|reflexivity].
  by apply judge_after_append.
Qed.

(** On a source that has a window the two scripts do the same. *)
Lemma temperature_as_Warning_system machine temp now (st : store) :
  is_Some (st !! machine) ->
  temperature.detect_anomaly machine temp now st
  = Warning_system.detect_anomaly machine temp now st.
Proof.
  intros [d Hd]. rewrite temperature_run, Warning_system_run.
  unfold window. by rewrite Hd.
Qed.

(** The window a call leaves behind, when it leaves one. *)
Lemma Warning_system_post machine_id temp now (st : store) d' :
  (Warning_system.detect_anomaly machine_id temp now st).2 !! machine_id = Some d' ->
  d' = deque_append (window st machine_id) temp.
Proof. rewrite Warning_system_run. simpl. rewrite lookup_insert_eq. congruence. Qed.

Lemma temperature_post machine temp now (st : store) d' :
  (temperature.detect_anomaly machine temp now st).2 !! machine = Some d' ->
  exists d, st !! machine = Some d /\ d' = deque_append d temp /\
    temperature.detect_anomaly machine temp now st
    = (Ok (judge machine (items d') temp now), <[machine := d']> st).
Proof.
  rewrite temperature_run.
  destruct (st !! machine) as [d|] eqn:Hd; simpl.
  - rewrite lookup_insert_eq. intros [= <-]. eauto.
  - rewrite Hd. done.
Qed.

(** ** Statistics of a window *)

Lemma fsum_constant c (w : list R) :
  Forall (eq c) w -> fsum w = c * INR (length w).
Proof.
  induction 1 as [|x w <- _ IH].
  - simpl. lra.
  - change (length (c :: w)) with (S (length w)).
    rewrite S_INR. simpl. rewrite IH. lra.
Qed.

Lemma sum_sq_dev_constant c (w : list R) :
  Forall (eq c) w -> sum_sq_dev c w = 0.
Proof.
  unfold sum_sq_dev. induction 1 as [|x w <- _ IH]; simpl; [done|].
  rewrite IH. lra.
Qed.

Lemma INR_length_pos (w : list R) : w <> [] -> 0 < INR (length w).
Proof. destruct w; [done|]. intros _. apply lt_0_INR. simpl. lia. Qed.

Lemma mean_of_constant c (w : list R) :
  w <> [] -> Forall (eq c) w -> mean_of w = c.
Proof.
  intros Hne Hc. unfold mean_of. rewrite (fsum_constant c) by done.
  pose proof (INR_length_pos w Hne). field. lra.
Qed.

Lemma stdev_of_constant c (w : list R) :
  w <> [] -> Forall (eq c) w -> stdev_of w = 0.
Proof.
  intros Hne Hc. unfold stdev_of.
  rewrite (mean_of_constant c), sum_sq_dev_constant by done.
  unfold Rdiv. rewrite Rmult_0_l. apply sqrt_0.
Qed.

Lemma long_nonempty (w : list R) : (5 <= length w)%nat -> w <> [].
Proof. destruct w; simpl; [lia | done]. Qed.

Lemma judge_constant machine_id c (w : list R) temp now :
  w <> [] -> Forall (eq c) w -> judge machine_id w temp now = (false, None).
Proof.
  intros Hne Hc. unfold judge.
  destruct (length w <? 5)%nat; [done|].
  rewrite (stdev_of_constant c) by done.
  by rewrite (proj2 (eqb_true 0 0)).
Qed.

Lemma judge_warm_up machine_id (w : list R) temp now :
  (length w < 5)%nat -> judge machine_id w temp now = (false, None).
Proof. intros H. unfold judge. apply Nat.ltb_lt in H. by rewrite H. Qed.

(** A call that leaves a window for its source returned the verdict of
    that window. *)
Lemma verdict_of_post_window :
  both (fun py => forall (st : store) machine_id temp now d',
    (detect_anomaly py machine_id temp now st).2 !! machine_id = Some d' ->
    (detect_anomaly py machine_id temp now st).1
    = Ok (judge machine_id (items d') temp now)).
Proof.
  split; simpl; intros st machine_id temp now d' Hpost.
  - apply Warning_system_post in Hpost. subst d'.
    by rewrite Warning_system_run.
  - by apply temperature_post in Hpost as (d & _ & _ & ->).
Qed.

Lemma feed_temperature_keeps_sources rs (st : store) machine :
  is_Some (st !! machine) ->
  is_Some ((feed temperature.detect_anomaly rs st).2 !! machine).
Proof.
  revert st. induction rs as [|r rs IH]; intros st Hm; simpl; [done|].
  destruct (temperature.detect_anomaly (source r) (value r) (clock r) st)
    as [out st1] eqn:Hrun.
  specialize (IH st1).
  destruct (feed temperature.detect_anomaly rs st1) as [outs st2]. simpl in *.
  apply IH. rewrite temperature_run in Hrun.
  destruct (st !! source r) as [d|]; injection Hrun as <- <-; [|done].
  destruct (decide (source r = machine)) as [->|Hne].
  - rewrite lookup_insert_eq. eauto.
  - by rewrite lookup_insert_ne.
Qed.

Lemma temperature_machines_have_windows machine :
  machine ∈ temperature.MACHINES ->
  temperature.machine_temp_data !! machine = Some (deque_new temperature.WINDOW_SIZE).
Proof.
  unfold temperature.MACHINES. rewrite !elem_of_cons, elem_of_nil.
  intros [->|[->|[->|[]]]]; reflexivity.
Qed.

(** ** The example windows, evaluated *)

Lemma steady_store_lookup : steady_store !! "Lathe_01"%string = Some (Deque 10 steady9).
Proof. apply lookup_singleton_eq. Qed.

(** The window after one more reading [x] on top of the nine of 60. *)
Lemma steady_store_post :
  both (fun py => forall x now,
    (detect_anomaly py "Lathe_01" x now steady_store).2 !! "Lathe_01"%string
    = Some (Deque 10 (steady9 ++ [x]))).
Proof.
  split; simpl; intros x now.
  - rewrite Warning_system_run. simpl. rewrite lookup_insert_eq.
    unfold window. rewrite steady_store_lookup. reflexivity.
  - rewrite temperature_run, steady_store_lookup. simpl.
    rewrite lookup_insert_eq. reflexivity.
Qed.

Lemma steady_mean x : mean_of (steady9 ++ [x]) = 60 + (x - 60) / 10.
Proof. unfold mean_of. simpl. lra. Qed.

Lemma steady_sum_sq_dev x :
  sum_sq_dev (mean_of (steady9 ++ [x])) (steady9 ++ [x])
  = 9 * ((x - 60) / 10 * ((x - 60) / 10)) * 10.
Proof. rewrite steady_mean. unfold sum_sq_dev. simpl. lra. Qed.

Lemma steady_stdev x : stdev_of (steady9 ++ [x]) = Rabs (x - 60) / sqrt 10.
Proof.
  unfold stdev_of. rewrite steady_sum_sq_dev.
  replace (INR (length (steady9 ++ [x])) - 1) with 9 by (simpl; lra).
  replace (9 * ((x - 60) / 10 * ((x - 60) / 10)) * 10 / 9)
    with (((x - 60) * (x - 60)) / 10) by lra.
  rewrite sqrt_div_alt by lra.
  f_equal. rewrite <- Rsqr_def. apply sqrt_Rsqr_abs.
Qed.

Lemma sqrt_10_bounds : 3 < sqrt 10 < 3.6.
Proof.
  split.
  - replace 3 with (sqrt (3 * 3)) by (apply sqrt_square; lra).
    apply sqrt_lt_1; lra.
  - replace 3.6 with (sqrt (3.6 * 3.6)) by (apply sqrt_square; lra).
    apply sqrt_lt_1; lra.
Qed.

Lemma steady_z_score_above x :
  60 < x ->
  (x - mean_of (steady9 ++ [x])) / stdev_of (steady9 ++ [x]) = 9 / 10 * sqrt 10.
Proof.
  intros Hx. rewrite steady_mean, steady_stdev, Rabs_right by lra.
  pose proof sqrt_10_bounds. field. lra.
Qed.

Lemma steady_z_score_below x :
  x < 60 ->
  (x - mean_of (steady9 ++ [x])) / stdev_of (steady9 ++ [x]) = - (9 / 10 * sqrt 10).
Proof.
  intros Hx. rewrite steady_mean, steady_stdev, Rabs_left by lra.
  pose proof sqrt_10_bounds. field. lra.
Qed.

Lemma steady_stdev_nonzero x : x <> 60 -> stdev_of (steady9 ++ [x]) <> 0.
Proof.
  intros Hx. rewrite steady_stdev. pose proof sqrt_10_bounds.
  assert (0 < Rabs (x - 60)) by (apply Rabs_pos_lt; lra).
  apply Rgt_not_eq. apply Rdiv_lt_0_compat; lra.
Qed.

(** ** What a returned verdict tells *)

Lemma judge_anomalous_inv machine_id (w : list R) temp now f :
  judge machine_id w temp now = (true, Some f) ->
  (5 <= length w)%nat /\ stdev_of w <> 0 /\
  (75 < temp \/ 2.5 < (temp - mean_of w) / stdev_of w) /\
  f = [ ("machine_id", VStr machine_id);
        ("temperature", VNum temp);
        ("z_score", VNum (round ((temp - mean_of w) / stdev_of w) 2));
        ("mean_temp", VNum (round (mean_of w) 2));
        ("anomaly_reason",
          VStr (if gtb temp 75 then "HIGH_TEMP" else "Z_SCORE_SPIKE"));
        ("timestamp", VNum now) ]%string.
Proof.
  unfold judge.
  destruct (length w <? 5)%nat eqn:Hn; [done|]. apply Nat.ltb_ge in Hn.
  destruct (eqb (stdev_of w) 0) eqn:Hsd; [done|]. apply eqb_false in Hsd.
  destruct (gtb temp 75 || gtb _ 2.5) eqn:Hor; [|done].
  intros [= <-]. repeat split; try done.
  apply orb_true_iff in Hor as [H|H]; apply gtb_true in H; auto.
Qed.

Lemma call_inversion :
  both (fun py => forall (st : store) machine_id temp now v,
    (detect_anomaly py machine_id temp now st).1 = Ok v ->
    exists d,
      (detect_anomaly py machine_id temp now st).2 !! machine_id
      = Some (deque_append d temp)
      /\ v = judge machine_id (items (deque_append d temp)) temp now).
Proof.
  split; simpl; intros st machine_id temp now v.
  - rewrite Warning_system_run. simpl. intros [= <-].
    exists (window st machine_id). by rewrite lookup_insert_eq.
  - rewrite temperature_run. destruct (st !! machine_id) as [d|]; simpl; [|done].
    intros [= <-]. exists d. by rewrite lookup_insert_eq.
Qed.

Lemma last_deque_append d x :
  items (deque_append d x) <> [] -> last (items (deque_append d x)) = Some x.
Proof.
  unfold deque_append. simpl.
  destruct (maxlen d <? length (items d ++ [x]))%nat.
  - destruct (items d) as [|y ys]; simpl; [done|]. intros _. apply last_snoc.
  - intros _. apply last_snoc.
Qed.

(** ** The claims *)

(** C1.  When the window of the source, after the new value is appended,
    holds at least five values and all of them are the same, its sample
    standard deviation is 0 and the call returns [(False, None)], whatever
    that value is and so also above [TEMP_THRESHOLD]: the zero-deviation
    test comes before the threshold test.  Holds for both scripts. *)
Theorem C1_constant_window_not_anomalous :
  both (fun py => forall (st : store) (machine_id : string) (temp now c : R) d',
    (detect_anomaly py machine_id temp now st).2 !! machine_id = Some d' ->
    (5 <= length (items d'))%nat ->
    Forall (eq c) (items d') ->
    stdev (items d') = Ok 0
    /\ (detect_anomaly py machine_id temp now st).1 = Ok (false, None)).
Proof.
  destruct verdict_of_post_window as [HW HT].
  assert (Hsd : forall (w : list R) c,
    (5 <= length w)%nat -> Forall (eq c) w -> stdev w = Ok 0).
  { intros w c Hlen Hc. rewrite stdev_ok by lia. f_equal.
    apply (stdev_of_constant c); [by apply long_nonempty | done]. }
  split; intros st machine_id temp now c d' Hpost Hlen Hc;
    (split; [by apply (Hsd _ c)|]).
  - rewrite (HW _ _ _ _ _ Hpost). f_equal.
    apply (judge_constant _ c); [by apply long_nonempty | done].
  - rewrite (HT _ _ _ _ _ Hpost). f_equal.
    apply (judge_constant _ c); [by apply long_nonempty | done].
Qed.

Lemma C1_witness :
  let st : store := {[ "Lathe_01"%string := Deque 10 [80; 80; 80; 80] ]} in
  75 < 80 /\
  (Warning_system.detect_anomaly "Lathe_01" 80 0 st).1 = Ok (false, None) /\
  (temperature.detect_anomaly "Lathe_01" 80 0 st).1 = Ok (false, None).
Proof.
  intros st. split; [lra|].
  destruct C1_constant_window_not_anomalous as [HW HT].
  split.
  - apply (HW st "Lathe_01"%string 80 0 80 (Deque 10 [80; 80; 80; 80; 80])).
    + simpl. rewrite Warning_system_run. simpl. rewrite lookup_insert_eq.
      unfold window, st. rewrite lookup_singleton_eq. reflexivity.
    + simpl. lia.
    + repeat constructor.
  - apply (HT st "Lathe_01"%string 80 0 80 (Deque 10 [80; 80; 80; 80; 80])).
    + simpl. rewrite temperature_run. unfold st. rewrite lookup_singleton_eq. simpl.
      rewrite lookup_insert_eq. reflexivity.
    + simpl. lia.
    + repeat constructor.
Defined.

(** A source without a window: [Warning_system] gives it one before the
    append, [temperature] raises [KeyError] and changes nothing. *)
Lemma Warning_system_new_source machine_id temp now (st : store) :
  st !! machine_id = None ->
  (Warning_system.detect_anomaly machine_id temp now st).2 !! machine_id
  = Some (Deque Warning_system.WINDOW_SIZE [temp]).
Proof.
  intros Hnew. rewrite Warning_system_run. simpl.
  rewrite lookup_insert_eq. unfold window. by rewrite Hnew.
Qed.

Lemma temperature_unknown_source machine temp now (st : store) :
  st !! machine = None ->
  temperature.detect_anomaly machine temp now st = (Raise (KeyError machine), st).
Proof. intros Hnew. by rewrite temperature_run, Hnew. Qed.

Lemma float_unit_pos : 0 < float_unit.
Proof. unfold float_unit. apply (IZR_lt 0). reflexivity. Qed.

Lemma huge_window_statistics :
  mean_of [huge; - huge; huge; - huge; huge] = huge / 5
  /\ stdev_of [huge; - huge; huge; - huge; huge] = sqrt (6 / 5 * (huge * huge)).
Proof.
  assert (Hmean : mean_of [huge; - huge; huge; - huge; huge] = huge / 5).
  { unfold mean_of. simpl. lra. }
  split; [exact Hmean|].
  unfold stdev_of. rewrite Hmean. f_equal.
  unfold sum_sq_dev. simpl. lra.
Qed.

(** C2, at the failing input.  After the readings 1.7e308, -1.7e308,
    1.7e308, -1.7e308 of one machine, the fifth reading 1.7e308 leaves a
    window of five values, so the call goes past the warm-up exit.  The
    mean of the window, 3.4e307, is a binary64 number, but its sample
    standard deviation, the real number [sqrt 1.2 * 1.7e308], lies above
    the largest binary64 number: [statistics.stdev] has no float to return
    for it and raises [OverflowError], which neither script catches, so the
    call raises.  The numbers of this development are the reals, where the
    deviation is a number like any other; the theorem locates the window
    and the size of its deviation.  Holds for both scripts. *)
Theorem C2_stdev_exceeds_float_max :
  both (fun py => exists d' mu sd,
    (detect_anomaly py "Lathe_01" huge 0 huge_store).2 !! "Lathe_01"%string = Some d'
    /\ items d' = [huge; - huge; huge; - huge; huge]
    /\ (5 <= length (items d'))%nat
    /\ Forall (fun x => Rabs x <= float_max) (items d')
    /\ mean (items d') = Ok mu
    /\ Rabs mu <= float_max
    /\ stdev (items d') = Ok sd
    /\ float_max < sd).
Proof.
  pose proof float_unit_pos as Hu.
  assert (Hhuge : 0 < huge <= float_max) by (unfold float_max, huge; lra).
  assert (Hsd : float_max < stdev_of [huge; - huge; huge; - huge; huge]).
  { destruct huge_window_statistics as [_ ->].
    assert (Hmax : 0 <= float_max) by lra.
    rewrite <- (sqrt_square float_max Hmax).
    apply sqrt_lt_1_alt. split; [nra|].
    unfold float_max, huge. nra. }
  assert (Hmu : Rabs (mean_of [huge; - huge; huge; - huge; huge]) <= float_max).
  { destruct huge_window_statistics as [-> _]. rewrite Rabs_pos_eq; lra. }
  assert (Hin : Forall (fun x => Rabs x <= float_max)
                       [huge; - huge; huge; - huge; huge]).
  { assert (Hpos : Rabs huge <= float_max) by (rewrite Rabs_pos_eq; lra).
    assert (Hneg : Rabs (- huge) <= float_max) by (rewrite Rabs_Ropp; exact Hpos).
    repeat (constructor; [assumption|]). constructor. }
  assert (Hlook : huge_store !! "Lathe_01"%string
                  = Some (Deque 10 [huge; - huge; huge; - huge]))
    by apply lookup_singleton_eq.
  split; exists (Deque 10 [huge; - huge; huge; - huge; huge]),
                (mean_of [huge; - huge; huge; - huge; huge]),
                (stdev_of [huge; - huge; huge; - huge; huge]);
    cbn [detect_anomaly Warning_system_py temperature_py].
  - rewrite Warning_system_run. cbn [snd]. rewrite lookup_insert_eq.
    unfold window. rewrite Hlook.
    split; [reflexivity|]. split; [reflexivity|]. split; [simpl; lia|].
    split; [exact Hin|]. split; [reflexivity|]. split; [exact Hmu|].
    split; [reflexivity | exact Hsd].
  - rewrite temperature_run, Hlook. cbn [snd]. rewrite lookup_insert_eq.
    split; [reflexivity|]. split; [reflexivity|]. split; [simpl; lia|].
    split; [exact Hin|]. split; [reflexivity|]. split; [exact Hmu|].
    split; [reflexivity | exact Hsd].
Qed.

(** C4.  When the window of the source, after the new value is appended,
    holds fewer than five values, the call returns [(False, None)] whatever
    the value is; the bound five is a literal of the code and the statement
    holds for windows of any [maxlen].  Holds for both scripts. *)
Theorem C4_warm_up_not_anomalous :
  both (fun py => forall (st : store) (machine_id : string) (temp now : R) d',
    (detect_anomaly py machine_id temp now st).2 !! machine_id = Some d' ->
    (length (items d') < 5)%nat ->
    (detect_anomaly py machine_id temp now st).1 = Ok (false, None)).
Proof.
  destruct verdict_of_post_window as [HW HT].
  split; intros st machine_id temp now d' Hpost Hlen.
  - rewrite (HW _ _ _ _ _ Hpost). f_equal. by apply judge_warm_up.
  - rewrite (HT _ _ _ _ _ Hpost). f_equal. by apply judge_warm_up.
Qed.

Lemma C4_witness :
  let st : store := {[ "Lathe_01"%string := Deque 10 [60; 61; 59] ]} in
  75 < 1000 /\
  (Warning_system.detect_anomaly "Lathe_01" 1000 0 st).1 = Ok (false, None) /\
  (temperature.detect_anomaly "Lathe_01" 1000 0 st).1 = Ok (false, None).
Proof.
  intros st. split; [lra|].
  destruct C4_warm_up_not_anomalous as [HW HT].
  split.
  - apply (HW st "Lathe_01"%string 1000 0 (Deque 10 [60; 61; 59; 1000])).
    + simpl. rewrite Warning_system_run. simpl. rewrite lookup_insert_eq.
      unfold window, st. rewrite lookup_singleton_eq. reflexivity.
    + simpl. lia.
  - apply (HT st "Lathe_01"%string 1000 0 (Deque 10 [60; 61; 59; 1000])).
    + simpl. rewrite temperature_run. unfold st. rewrite lookup_singleton_eq. simpl.
      rewrite lookup_insert_eq. reflexivity.
    + simpl. lia.
Defined.

Lemma steady_length x : length (steady9 ++ [x]) = 10%nat.
Proof. reflexivity. Qed.

(** After nine readings of 60 any warmer reading is flagged: its z-score is
    [0.9 * sqrt 10], about 2.85. *)
Lemma steady_judge_above machine_id x now :
  60 < x ->
  judge machine_id (steady9 ++ [x]) x now
  = (true, Some [ ("machine_id", VStr machine_id);
                  ("temperature", VNum x);
                  ("z_score", VNum (round (9 / 10 * sqrt 10) 2));
                  ("mean_temp", VNum (round (60 + (x - 60) / 10) 2));
                  ("anomaly_reason",
                    VStr (if gtb x 75 then "HIGH_TEMP" else "Z_SCORE_SPIKE"));
                  ("timestamp", VNum now) ]%string).
Proof.
  intros Hx. unfold judge. rewrite steady_length. simpl Nat.ltb. cbv iota.
  rewrite (proj2 (eqb_false _ 0)) by (apply steady_stdev_nonzero; lra).
  rewrite steady_z_score_above by done.
  assert (Hz : gtb (9 / 10 * sqrt 10) 2.5 = true).
  { apply gtb_true. pose proof sqrt_10_bounds. lra. }
  rewrite Hz, orb_true_r. by rewrite steady_mean.
Qed.

(** And no colder reading is, although its z-score is [- 0.9 * sqrt 10]. *)
Lemma steady_judge_below machine_id x now :
  x < 60 -> judge machine_id (steady9 ++ [x]) x now = (false, None).
Proof.
  intros Hx. unfold judge. rewrite steady_length. simpl Nat.ltb. cbv iota.
  rewrite (proj2 (eqb_false _ 0)) by (apply steady_stdev_nonzero; lra).
  rewrite steady_z_score_below by done.
  rewrite (proj2 (gtb_false x 75)) by lra.
  rewrite (proj2 (gtb_false _ 2.5)); [done|].
  pose proof sqrt_10_bounds. lra.
Qed.

(** The call on [steady_store], for either script. *)
Lemma steady_call :
  both (fun py => forall x now,
    (detect_anomaly py "Lathe_01" x now steady_store).1
    = Ok (judge "Lathe_01" (steady9 ++ [x]) x now)).
Proof.
  destruct verdict_of_post_window as [HW HT].
  destruct steady_store_post as [PW PT].
  split; intros x now.
  - by rewrite (HW _ _ _ _ _ (PW x now)).
  - by rewrite (HT _ _ _ _ _ (PT x now)).
Qed.

(** The statistics of a returned verdict are those of the stored window. *)
Lemma statistics_of_post_window (w : list R) temp mu sd z :
  w <> [] ->
  mean w = Ok mu -> stdev w = Ok sd -> truediv (temp - mu) sd = Ok z ->
  mu = mean_of w /\ sd = stdev_of w /\ sd <> 0 /\ z = (temp - mean_of w) / stdev_of w.
Proof.
  intros Hne Hmu Hsd Hz.
  rewrite mean_ok in Hmu by done. injection Hmu as <-.
  assert (sd = stdev_of w) as ->.
  { destruct w as [|x [|y w]]; [done | done |]. by injection Hsd as <-. }
  unfold truediv in Hz. destruct (eqb (stdev_of w) 0) eqn:E; [done|].
  apply eqb_false in E. by injection Hz as <-.
Qed.

Lemma judge_reason machine_id (w : list R) temp now f :
  judge machine_id w temp now = (true, Some f) ->
  (reason_of f = Ok (VStr "HIGH_TEMP") <-> 75 < temp)
  /\ (reason_of f = Ok (VStr "Z_SCORE_SPIKE")
      <-> ~ 75 < temp /\ 2.5 < (temp - mean_of w) / stdev_of w).
Proof.
  intros Hj. apply judge_anomalous_inv in Hj as (_ & _ & Hor & ->).
  unfold reason_of. simpl dict_getitem.
  destruct (gtb temp 75) eqn:Ht.
  - apply gtb_true in Ht. split; split; try done. intros [? _]. done.
  - apply gtb_false in Ht. split; split; try done.
    + intros ?. lra.
    + intros _. split; [lra|]. destruct Hor; [lra | done].
Qed.

(** The statistics that a call which returned a verdict computed. *)
Lemma statistics_exist :
  both (fun py => forall (st : store) machine_id temp now f,
    (detect_anomaly py machine_id temp now st).1 = Ok (true, Some f) ->
    exists d',
      (detect_anomaly py machine_id temp now st).2 !! machine_id = Some d'
      /\ (exists d, d' = deque_append d temp)
      /\ (5 <= length (items d'))%nat
      /\ mean (items d') = Ok (mean_of (items d'))
      /\ stdev (items d') = Ok (stdev_of (items d'))
      /\ stdev_of (items d') <> 0
      /\ truediv (temp - mean_of (items d')) (stdev_of (items d'))
         = Ok ((temp - mean_of (items d')) / stdev_of (items d'))
      /\ judge machine_id (items d') temp now = (true, Some f)).
Proof.
  destruct call_inversion as [HW HT].
  split; intros st machine_id temp now f Hcall.
  - destruct (HW _ _ _ _ _ Hcall) as (d & Hpost & Hj).
    exists (deque_append d temp). symmetry in Hj.
    pose proof (judge_anomalous_inv _ _ _ _ _ Hj) as (Hlen & Hsd & _ & _).
    repeat split; eauto.
    + apply mean_ok. by apply long_nonempty.
    + apply stdev_ok. lia.
    + by apply truediv_ok.
  - destruct (HT _ _ _ _ _ Hcall) as (d & Hpost & Hj).
    exists (deque_append d temp). symmetry in Hj.
    pose proof (judge_anomalous_inv _ _ _ _ _ Hj) as (Hlen & Hsd & _ & _).
    repeat split; eauto.
    + apply mean_ok. by apply long_nonempty.
    + apply stdev_ok. lia.
    + by apply truediv_ok.
Qed.

(** C3.  For a reading classified anomalous, with [mu], [sd] and [z] the
    mean, the standard deviation and the z-score the call computed on the
    window after the append: when the value is above [TEMP_THRESHOLD] and
    [z] is above [Z_SCORE_LIMIT] at once the reason is [HIGH_TEMP] and not
    [Z_SCORE_SPIKE]; the reason is [HIGH_TEMP] exactly when the value is
    above the threshold, and [Z_SCORE_SPIKE] exactly when it is not and
    [z] is above the limit.  Holds for both scripts. *)
Theorem C3_reason_priority :
  both (fun py => forall (st : store) machine_id temp now f,
    (detect_anomaly py machine_id temp now st).1 = Ok (true, Some f) ->
    exists d' mu sd z,
      (detect_anomaly py machine_id temp now st).2 !! machine_id = Some d'
      /\ mean (items d') = Ok mu
      /\ stdev (items d') = Ok sd
      /\ truediv (temp - mu) sd = Ok z
      /\ (TEMP_THRESHOLD py < temp -> Z_SCORE_LIMIT py < z ->
          reason_of f = Ok (VStr "HIGH_TEMP")
          /\ reason_of f <> Ok (VStr "Z_SCORE_SPIKE"))
      /\ (reason_of f = Ok (VStr "HIGH_TEMP") <-> TEMP_THRESHOLD py < temp)
      /\ (reason_of f = Ok (VStr "Z_SCORE_SPIKE")
          <-> ~ TEMP_THRESHOLD py < temp /\ Z_SCORE_LIMIT py < z)).
Proof.
  destruct statistics_exist as [HW HT].
  split; intros st machine_id temp now f Hcall.
  - destruct (HW _ _ _ _ _ Hcall) as (d' & Hpost & _ & _ & Hmu & Hsd & _ & Hz & Hj).
    exists d', (mean_of (items d')), (stdev_of (items d')),
      ((temp - mean_of (items d')) / stdev_of (items d')).
    destruct (judge_reason _ _ _ _ _ Hj) as [Hhigh Hspike].
    simpl. unfold Warning_system.TEMP_THRESHOLD, Warning_system.Z_SCORE_LIMIT.
    repeat split; try done; tauto.
  - destruct (HT _ _ _ _ _ Hcall) as (d' & Hpost & _ & _ & Hmu & Hsd & _ & Hz & Hj).
    exists d', (mean_of (items d')), (stdev_of (items d')),
      ((temp - mean_of (items d')) / stdev_of (items d')).
    destruct (judge_reason _ _ _ _ _ Hj) as [Hhigh Hspike].
    simpl. unfold temperature.TEMP_THRESHOLD, temperature.Z_SCORE_LIMIT.
    repeat split; try done; tauto.
Qed.

(** The z-score a call on [steady_store] computes, from what the call
    left in the dictionary. *)
Lemma steady_z_score :
  both (fun py => forall x now d' mu sd z,
    (detect_anomaly py "Lathe_01" x now steady_store).2 !! "Lathe_01"%string = Some d' ->
    mean (items d') = Ok mu -> stdev (items d') = Ok sd ->
    truediv (x - mu) sd = Ok z ->
    z = (x - mean_of (steady9 ++ [x])) / stdev_of (steady9 ++ [x])).
Proof.
  destruct steady_store_post as [PW PT].
  split; intros x now d' mu sd z Hpost Hmu Hsd Hz.
  - rewrite (PW x now) in Hpost. injection Hpost as <-.
    by apply (statistics_of_post_window _ _ mu sd z).
  - rewrite (PT x now) in Hpost. injection Hpost as <-.
    by apply (statistics_of_post_window _ _ mu sd z).
Qed.

Lemma C3_witness :
  (exists f,
      (Warning_system.detect_anomaly "Lathe_01" 120 0 steady_store).1 = Ok (true, Some f)
      /\ reason_of f = Ok (VStr "HIGH_TEMP")
      /\ reason_of f <> Ok (VStr "Z_SCORE_SPIKE"))
  /\ (exists f,
      (temperature.detect_anomaly "Lathe_01" 70 0 steady_store).1 = Ok (true, Some f)
      /\ reason_of f = Ok (VStr "Z_SCORE_SPIKE")).
Proof.
  destruct C3_reason_priority as [HW HT].
  destruct steady_call as [CW CT]. destruct steady_z_score as [ZW ZT].
  pose proof sqrt_10_bounds as Hsqrt.
  split.
  - pose proof (CW 120 0) as Hcall. cbv beta in Hcall.
    unfold detect_anomaly, Warning_system_py in Hcall.
    rewrite steady_judge_above in Hcall by lra.
    eexists. split; [exact Hcall|].
    destruct (HW _ _ _ _ _ Hcall) as (d' & mu & sd & z & Hpost & Hmu & Hsd & Hz & Hboth & _).
    apply Hboth.
    + unfold TEMP_THRESHOLD. simpl. unfold Warning_system.TEMP_THRESHOLD. lra.
    + rewrite (ZW _ _ _ _ _ _ Hpost Hmu Hsd Hz), steady_z_score_above by lra.
      unfold Z_SCORE_LIMIT. simpl. unfold Warning_system.Z_SCORE_LIMIT. lra.
  - pose proof (CT 70 0) as Hcall. cbv beta in Hcall.
    unfold detect_anomaly, temperature_py in Hcall.
    rewrite steady_judge_above in Hcall by lra.
    eexists. split; [exact Hcall|].
    destruct (HT _ _ _ _ _ Hcall) as (d' & mu & sd & z & Hpost & Hmu & Hsd & Hz & _ & _ & Hspike).
    apply Hspike. split.
    + unfold TEMP_THRESHOLD. simpl. unfold temperature.TEMP_THRESHOLD. lra.
    + rewrite (ZT _ _ _ _ _ _ Hpost Hmu Hsd Hz), steady_z_score_above by lra.
      unfold Z_SCORE_LIMIT. simpl. unfold temperature.Z_SCORE_LIMIT. lra.
Defined.

(** C8.  When the value is at most [TEMP_THRESHOLD] and the z-score the
    call computes on the window after the append is negative, the call
    returns [(False, None)], however far below [- Z_SCORE_LIMIT] the
    z-score is: only a z-score above the limit counts.  Holds for both
    scripts. *)
Theorem C8_cold_reading_not_anomalous :
  both (fun py => forall (st : store) machine_id temp now d' mu sd z,
    (detect_anomaly py machine_id temp now st).2 !! machine_id = Some d' ->
    mean (items d') = Ok mu ->
    stdev (items d') = Ok sd ->
    truediv (temp - mu) sd = Ok z ->
    temp <= TEMP_THRESHOLD py ->
    z < 0 ->
    (detect_anomaly py machine_id temp now st).1 = Ok (false, None)).
Proof.
  destruct verdict_of_post_window as [HW HT].
  assert (Hjudge : forall machine_id (w : list R) temp now mu sd z,
    mean w = Ok mu -> stdev w = Ok sd -> truediv (temp - mu) sd = Ok z ->
    temp <= 75 -> z < 0 -> judge machine_id w temp now = (false, None)).
  { intros machine_id w temp now mu sd z Hmu Hsd Hz Ht Hneg.
    assert (Hne : w <> []) by (by destruct w).
    destruct (statistics_of_post_window w temp mu sd z Hne Hmu Hsd Hz)
      as (_ & _ & _ & ->).
    unfold judge.
    destruct (length w <? 5)%nat; [done|].
    destruct (eqb (stdev_of w) 0); [done|].
    rewrite (proj2 (gtb_false temp 75)) by done.
    rewrite (proj2 (gtb_false _ 2.5)) by lra. done. }
  split; intros st machine_id temp now d' mu sd z Hpost Hmu Hsd Hz Ht Hneg.
  - rewrite (HW _ _ _ _ _ Hpost). f_equal. by apply (Hjudge _ _ _ _ mu sd z).
  - rewrite (HT _ _ _ _ _ Hpost). f_equal. by apply (Hjudge _ _ _ _ mu sd z).
Qed.

Lemma C8_witness :
  let w := steady9 ++ [-100] in
  let z := (-100 - mean_of w) / stdev_of w in
  z < - 2.5
  /\ (Warning_system.detect_anomaly "Lathe_01" (-100) 0 steady_store).1 = Ok (false, None)
  /\ (temperature.detect_anomaly "Lathe_01" (-100) 0 steady_store).1 = Ok (false, None).
Proof.
  intros w z.
  destruct C8_cold_reading_not_anomalous as [HW HT].
  destruct steady_store_post as [PW PT].
  pose proof sqrt_10_bounds as Hsqrt.
  assert (Hz : z = - (9 / 10 * sqrt 10)) by (apply steady_z_score_below; lra).
  assert (Hsd : stdev_of w <> 0) by (apply steady_stdev_nonzero; lra).
  split; [lra|]. split.
  - apply (HW steady_store "Lathe_01"%string (-100) 0 (Deque 10 w)
             (mean_of w) (stdev_of w) z).
    + apply PW.
    + reflexivity.
    + reflexivity.
    + by apply truediv_ok.
    + unfold TEMP_THRESHOLD. simpl. unfold Warning_system.TEMP_THRESHOLD. lra.
    + lra.
  - apply (HT steady_store "Lathe_01"%string (-100) 0 (Deque 10 w)
             (mean_of w) (stdev_of w) z).
    + apply PT.
    + reflexivity.
    + reflexivity.
    + by apply truediv_ok.
    + unfold TEMP_THRESHOLD. simpl. unfold temperature.TEMP_THRESHOLD. lra.
    + lra.
Defined.

(** ** The bounded window *)

Lemma most_recent_length n (vs : list R) :
  length (most_recent n vs) = Nat.min n (length vs).
Proof. unfold most_recent. rewrite length_drop. lia. Qed.

Lemma most_recent_all n (vs : list R) :
  (length vs <= n)%nat -> most_recent n vs = vs.
Proof.
  intros H. unfold most_recent.
  replace (length vs - n)%nat with 0%nat by lia. reflexivity.
Qed.

Lemma tail_drop (k : nat) (l : list R) : tail (drop k l) = drop (S k) l.
Proof.
  revert l. induction k as [|k IH]; intros [|y l]; simpl; try done.
Qed.

(** One [append] on a full or filling window keeps it the same suffix of
    the longer history. *)
Lemma deque_append_most_recent n (vs : list R) x :
  deque_append (Deque n (most_recent n vs)) x = Deque n (most_recent n (vs ++ [x])).
Proof.
  unfold deque_append. simpl. f_equal.
  rewrite length_app, most_recent_length. simpl.
  unfold most_recent. rewrite length_app. simpl.
  destruct (n <? Nat.min n (length vs) + 1)%nat eqn:Hfull.
  - apply Nat.ltb_lt in Hfull.
    rewrite <- drop_app_le by lia.
    replace (length vs + 1 - n)%nat with (S (length vs - n)) by lia.
    apply tail_drop.
  - apply Nat.ltb_ge in Hfull.
    rewrite <- drop_app_le by lia.
    f_equal. lia.
Qed.

Lemma of_source_snoc m rs r :
  of_source m (rs ++ [r])
  = of_source m rs ++ (if decide (source r = m) then [r] else []).
Proof.
  unfold of_source. by rewrite filter_app.
Qed.

Lemma temps_snoc rs r : temps (rs ++ [r]) = temps rs ++ [value r].
Proof. unfold temps. by rewrite map_app. Qed.

Lemma shows_step n hist r d :
  shows n hist (source r) d ->
  shows n (hist ++ [r]) (source r) (deque_append d (value r)).
Proof.
  unfold shows. intros ->.
  rewrite of_source_snoc, decide_True by done.
  by rewrite temps_snoc, deque_append_most_recent.
Qed.

Lemma shows_other n hist r m d :
  source r <> m -> shows n hist m d -> shows n (hist ++ [r]) m d.
Proof.
  unfold shows. intros Hne ->.
  by rewrite of_source_snoc, decide_False, app_nil_r.
Qed.

Lemma window_insert (st : store) m m' d :
  window (<[m := d]> st) m' = if decide (m = m') then d else window st m'.
Proof.
  unfold window. destruct (decide (m = m')) as [->|Hne].
  - by rewrite lookup_insert_eq.
  - by rewrite lookup_insert_ne.
Qed.

Lemma feed_cons detect r rs (st : store) :
  feed detect (r :: rs) st
  = ((detect (source r) (value r) (clock r) st).1
       :: (feed detect rs (detect (source r) (value r) (clock r) st).2).1,
     (feed detect rs (detect (source r) (value r) (clock r) st).2).2).
Proof.
  simpl. destruct (detect (source r) (value r) (clock r) st) as [out st1]. simpl.
  by destruct (feed detect rs st1).
Qed.

(** Fed any readings, every window of [Warning_system] shows the history
    of its source; a source without a window has no history. *)
Lemma Warning_system_feed_shows rs :
  forall (st : store) hist,
    (forall m, shows 10 hist m (window st m)) ->
    forall m, shows 10 (hist ++ rs) m
                (window (feed Warning_system.detect_anomaly rs st).2 m).
Proof.
  induction rs as [|r rs IH]; intros st hist Hinv m.
  - simpl. rewrite app_nil_r. apply Hinv.
  - rewrite feed_cons. simpl. rewrite cons_middle, app_assoc.
    apply IH. clear m. intros m.
    rewrite Warning_system_run. simpl. rewrite window_insert.
    destruct (decide (source r = m)) as [<-|Hne].
    + apply shows_step, Hinv.
    + apply shows_other; [done | apply Hinv].
Qed.

(** The same for the windows that [temperature] has. *)
Lemma temperature_feed_shows rs :
  forall (st : store) hist,
    (forall m d, st !! m = Some d -> shows 10 hist m d) ->
    forall m d, (feed temperature.detect_anomaly rs st).2 !! m = Some d ->
                shows 10 (hist ++ rs) m d.
Proof.
  induction rs as [|r rs IH]; intros st hist Hinv m d.
  - simpl. rewrite app_nil_r. apply Hinv.
  - rewrite feed_cons. simpl. rewrite cons_middle, app_assoc.
    apply IH. clear m d. intros m d.
    rewrite temperature_run.
    destruct (st !! source r) as [d0|] eqn:Hd0; simpl.
    + destruct (decide (source r = m)) as [<-|Hne].
      * rewrite lookup_insert_eq. intros [= <-]. by apply shows_step, Hinv.
      * rewrite lookup_insert_ne by done. intros Hm.
        apply shows_other; [done | by apply Hinv].
    + intros Hm. destruct (decide (source r = m)) as [<-|Hne]; [congruence|].
      apply shows_other; [done | by apply Hinv].
Qed.

Lemma temperature_initial_windows m d :
  temperature.machine_temp_data !! m = Some d -> d = Deque 10 [].
Proof.
  unfold temperature.machine_temp_data. simpl.
  rewrite !lookup_insert. repeat case_decide; by intros [= <-].
Qed.

(** C5.  After any sequence of readings fed from the start, the window of
    a source holds the [WINDOW_SIZE] most recent temperatures of that source
    in arrival order; its length is at most [WINDOW_SIZE], and exactly
    [WINDOW_SIZE] once the source sent more than that many, the oldest
    being dropped first.  Holds for both scripts. *)
Theorem C5_window_bounded_fifo :
  both (fun py => forall (rs : list reading) (m : string) (d : deque),
    (feed (detect_anomaly py) rs (machine_temp_data py)).2 !! m = Some d ->
    items d = most_recent (WINDOW_SIZE py) (temps (of_source m rs))
    /\ (length (items d) <= WINDOW_SIZE py)%nat
    /\ ((WINDOW_SIZE py < length (temps (of_source m rs)))%nat ->
        length (items d) = WINDOW_SIZE py)).
Proof.
  assert (Hfrom : forall (d : deque) vs,
    d = Deque 10 (most_recent 10 vs) ->
    items d = most_recent 10 vs /\ (length (items d) <= 10)%nat
    /\ ((10 < length vs)%nat -> length (items d) = 10%nat)).
  { intros d vs ->. simpl. rewrite most_recent_length. repeat split; lia. }
  split; intros rs m d Hd; simpl in *.
  - apply Hfrom.
    pose proof (Warning_system_feed_shows rs Warning_system.machine_temp_data [])
      as Hshows.
    specialize (Hshows (fun m => eq_refl) m).
    unfold window in Hshows. by rewrite Hd in Hshows.
  - apply Hfrom.
    apply (temperature_feed_shows rs temperature.machine_temp_data []); [|done].
    intros m' d' Hd'. by rewrite (temperature_initial_windows _ _ Hd').
Qed.

Lemma Warning_system_feed_lookup rs m :
  of_source m rs <> [] ->
  (feed Warning_system.detect_anomaly rs Warning_system.machine_temp_data).2 !! m
  = Some (Deque 10 (most_recent 10 (temps (of_source m rs)))).
Proof.
  intros Hne.
  pose proof (Warning_system_feed_shows rs Warning_system.machine_temp_data []
                (fun m => eq_refl) m) as Hshows.
  unfold window, shows in Hshows. simpl in Hshows.
  destruct (_ !! m) as [d|]; simpl in Hshows; [by rewrite Hshows|].
  exfalso. injection Hshows as Hnil. apply (f_equal length) in Hnil.
  rewrite most_recent_length in Hnil. unfold temps in Hnil.
  rewrite length_map in Hnil. simpl in Hnil.
  destruct (of_source m rs); [done | simpl in Hnil; lia].
Qed.

Lemma temperature_feed_lookup rs m :
  m ∈ temperature.MACHINES ->
  (feed temperature.detect_anomaly rs temperature.machine_temp_data).2 !! m
  = Some (Deque 10 (most_recent 10 (temps (of_source m rs)))).
Proof.
  intros Hin.
  destruct (feed_temperature_keeps_sources rs temperature.machine_temp_data m)
    as [d Hd].
  { rewrite temperature_machines_have_windows; eauto. }
  rewrite Hd. f_equal.
  apply (temperature_feed_shows rs temperature.machine_temp_data []) in Hd; [done|].
  intros m' d' Hd'. by rewrite (temperature_initial_windows _ _ Hd').
Qed.

Lemma C5_witness :
  let d := Deque 10 [3; 4; 5; 6; 7; 8; 9; 10; 11; 12] in
  (feed Warning_system.detect_anomaly twelve Warning_system.machine_temp_data).2
    !! "Lathe_01"%string = Some d
  /\ (feed temperature.detect_anomaly twelve temperature.machine_temp_data).2
       !! "Lathe_01"%string = Some d
  /\ temps (of_source "Lathe_01" twelve) = [1; 2; 3; 4; 5; 6; 7; 8; 9; 10; 11; 12]
  /\ items d = most_recent 10 (temps (of_source "Lathe_01" twelve))
  /\ length (items d) = 10%nat.
Proof.
  intros d.
  assert (HW : (feed Warning_system.detect_anomaly twelve
                  Warning_system.machine_temp_data).2 !! "Lathe_01"%string = Some d).
  { by rewrite Warning_system_feed_lookup. }
  assert (HT : (feed temperature.detect_anomaly twelve
                  temperature.machine_temp_data).2 !! "Lathe_01"%string = Some d).
  { rewrite temperature_feed_lookup; [done|].
    unfold temperature.MACHINES. repeat constructor. }
  destruct C5_window_bounded_fifo as [CW CT].
  destruct (CW twelve "Lathe_01"%string d HW) as (Hitems & _ & Hfull).
  destruct (CT twelve "Lathe_01"%string d HT) as (_ & _ & _).
  repeat split; try done.
Defined.

(** ** Sources do not interfere *)

Section Independence.

Variable detect : string -> R -> R -> M verdict.

(** A call leaves the windows of the other sources alone ... *)
Hypothesis frame : forall m temp now (st : store) m',
  m' <> m -> (detect m temp now st).2 !! m' = st !! m'.

(** ... and what it returns and leaves for its own source is a function of
    that source's window. *)
Hypothesis own_window_only : forall m temp now (st st' : store),
  st !! m = st' !! m ->
  (detect m temp now st).1 = (detect m temp now st').1
  /\ (detect m temp now st).2 !! m = (detect m temp now st').2 !! m.

Lemma feed_alone rs :
  forall (st st' : store) m,
    st !! m = st' !! m ->
    outcomes_of m rs (feed detect rs st).1 = (feed detect (of_source m rs) st').1
    /\ (feed detect rs st).2 !! m = (feed detect (of_source m rs) st').2 !! m.
Proof.
  induction rs as [|r rs IH]; intros st st' m Hsame; [done|].
  rewrite feed_cons. unfold of_source. rewrite filter_cons. fold (of_source m rs).
  simpl. destruct (decide (source r = m)) as [Hr|Hr].
  - rewrite feed_cons. simpl.
    subst m.
    destruct (own_window_only (source r) (value r) (clock r) st st' Hsame)
      as [Hout Hpost].
    destruct (IH _ _ (source r) Hpost) as [IHout IHpost].
    split; [by rewrite Hout, IHout | done].
  - apply IH. rewrite <- Hsame. apply frame. congruence.
Qed.

End Independence.

Lemma Warning_system_frame m temp now (st : store) m' :
  m' <> m -> (Warning_system.detect_anomaly m temp now st).2 !! m' = st !! m'.
Proof. intros Hne. rewrite Warning_system_run. simpl. by rewrite lookup_insert_ne. Qed.

Lemma temperature_frame m temp now (st : store) m' :
  m' <> m -> (temperature.detect_anomaly m temp now st).2 !! m' = st !! m'.
Proof.
  intros Hne. rewrite temperature_run.
  destruct (st !! m); simpl; [by rewrite lookup_insert_ne | done].
Qed.

Lemma Warning_system_own_window_only m temp now (st st' : store) :
  st !! m = st' !! m ->
  (Warning_system.detect_anomaly m temp now st).1
  = (Warning_system.detect_anomaly m temp now st').1
  /\ (Warning_system.detect_anomaly m temp now st).2 !! m
     = (Warning_system.detect_anomaly m temp now st').2 !! m.
Proof.
  intros Hsame. rewrite !Warning_system_run. simpl.
  rewrite !lookup_insert_eq. unfold window. by rewrite Hsame.
Qed.

Lemma temperature_own_window_only m temp now (st st' : store) :
  st !! m = st' !! m ->
  (temperature.detect_anomaly m temp now st).1
  = (temperature.detect_anomaly m temp now st').1
  /\ (temperature.detect_anomaly m temp now st).2 !! m
     = (temperature.detect_anomaly m temp now st').2 !! m.
Proof.
  intros Hsame. rewrite !temperature_run. rewrite <- Hsame.
  destruct (st !! m) as [d|] eqn:Hd; simpl; [|by rewrite Hd, <- Hsame].
  by rewrite !lookup_insert_eq.
Qed.

(** C9.  A call for one source leaves the window of every other source as
    it was, and in any interleaving of readings the outcomes for one source
    and the window it ends with are those of feeding that source's readings
    alone.  Holds for both scripts. *)
Theorem C9_sources_independent :
  both (fun py =>
    (forall (st : store) m temp now m',
        m' <> m -> (detect_anomaly py m temp now st).2 !! m' = st !! m')
    /\ (forall (rs : list reading) (st : store) m,
        outcomes_of m rs (feed (detect_anomaly py) rs st).1
        = (feed (detect_anomaly py) (of_source m rs) st).1
        /\ (feed (detect_anomaly py) rs st).2 !! m
           = (feed (detect_anomaly py) (of_source m rs) st).2 !! m)).
Proof.
  split; simpl; (split; [intros st m temp now m' Hne | intros rs st m]).
  - by apply Warning_system_frame.
  - apply feed_alone; [apply Warning_system_frame
                      | apply Warning_system_own_window_only | done].
  - by apply temperature_frame.
  - apply feed_alone; [apply temperature_frame
                      | apply temperature_own_window_only | done].
Qed.

Lemma C9_witness :
  "Lathe_01"%string <> "Drill_03"%string
  /\ (Warning_system.detect_anomaly "Drill_03" 99 0 steady_store).2 !! "Lathe_01"%string
     = Some (Deque 10 steady9)
  /\ (temperature.detect_anomaly "Drill_03" 99 0 steady_store).2 !! "Lathe_01"%string
     = Some (Deque 10 steady9)
  /\ outcomes_of "Drill_03" twelve
       (feed Warning_system.detect_anomaly twelve Warning_system.machine_temp_data).1
     = (feed Warning_system.detect_anomaly
          [Reading "Drill_03" 50 0; Reading "Drill_03" 51 0]
          Warning_system.machine_temp_data).1.
Proof.
  destruct C9_sources_independent as [[FW AW] [FT _]].
  assert (Hne : "Lathe_01"%string <> "Drill_03"%string) by discriminate.
  split; [exact Hne|]. split; [|split].
  - rewrite <- steady_store_lookup. apply (FW steady_store). exact Hne.
  - rewrite <- steady_store_lookup. apply (FT steady_store). exact Hne.
  - apply (AW twelve Warning_system.machine_temp_data "Drill_03"%string).
Defined.

(** ** Verdicts depend on the window and the value only *)

Lemma judge_same m1 m2 (w : list R) temp now1 now2 :
  same_verdict (Ok (judge m1 w temp now1)) (Ok (judge m2 w temp now2)).
Proof.
  unfold judge.
  destruct (length w <? 5)%nat; [done|].
  destruct (eqb (stdev_of w) 0); [done|].
  destruct (gtb temp 75 || gtb _ 2.5); [|done].
  split; [done|]. intros k. unfold compared_keys.
  rewrite !elem_of_cons, elem_of_nil.
  intros [->|[->|[->|[->|[]]]]]; reflexivity.
Qed.

(** C10.  Two calls on windows with the same contents and the same new
    value return the same boolean and, when anomalous, the same
    temperature, rounded z-score, rounded mean and reason, and leave the
    same window, whatever the two sources, the two clock values and the
    rest of the two dictionaries are.  Holds for both scripts; for
    [Warning_system] a source without a window counts as one with an empty
    window. *)
Theorem C10_verdict_deterministic :
  both (fun py => forall (st1 st2 : store) m1 m2 temp now1 now2 d,
    st1 !! m1 = Some d -> st2 !! m2 = Some d ->
    same_verdict (detect_anomaly py m1 temp now1 st1).1
                 (detect_anomaly py m2 temp now2 st2).1
    /\ (detect_anomaly py m1 temp now1 st1).2 !! m1
       = (detect_anomaly py m2 temp now2 st2).2 !! m2)
  /\ (forall (st1 st2 : store) m1 m2 temp now1 now2,
    window st1 m1 = window st2 m2 ->
    same_verdict (Warning_system.detect_anomaly m1 temp now1 st1).1
                 (Warning_system.detect_anomaly m2 temp now2 st2).1
    /\ (Warning_system.detect_anomaly m1 temp now1 st1).2 !! m1
       = (Warning_system.detect_anomaly m2 temp now2 st2).2 !! m2).
Proof.
  assert (HW : forall (st1 st2 : store) m1 m2 temp now1 now2,
    window st1 m1 = window st2 m2 ->
    same_verdict (Warning_system.detect_anomaly m1 temp now1 st1).1
                 (Warning_system.detect_anomaly m2 temp now2 st2).1
    /\ (Warning_system.detect_anomaly m1 temp now1 st1).2 !! m1
       = (Warning_system.detect_anomaly m2 temp now2 st2).2 !! m2).
  { intros st1 st2 m1 m2 temp now1 now2 Hw.
    rewrite !Warning_system_run. simpl. rewrite !lookup_insert_eq, Hw.
    split; [apply judge_same | done]. }
  split; [split|exact HW]; simpl.
  - intros st1 st2 m1 m2 temp now1 now2 d H1 H2.
    apply HW. unfold window. by rewrite H1, H2.
  - intros st1 st2 m1 m2 temp now1 now2 d H1 H2.
    rewrite !temperature_run, H1, H2. simpl. rewrite !lookup_insert_eq.
    split; [apply judge_same | done].
Qed.

Lemma C10_witness :
  steady_store !! "Lathe_01"%string = steady_store_2 !! "Drill_03"%string
  /\ same_verdict (Warning_system.detect_anomaly "Lathe_01" 120 0 steady_store).1
                  (Warning_system.detect_anomaly "Drill_03" 120 1 steady_store_2).1
  /\ same_verdict (temperature.detect_anomaly "Lathe_01" 120 0 steady_store).1
                  (temperature.detect_anomaly "Drill_03" 120 1 steady_store_2).1
  /\ same_verdict (Warning_system.detect_anomaly "Lathe_01" 20 0 ∅).1
                  (Warning_system.detect_anomaly "Drill_03" 20 1
                     {[ "Drill_03"%string := Deque 10 [] ]}).1.
Proof.
  destruct C10_verdict_deterministic as [[HW HT] HE].
  assert (H1 : steady_store !! "Lathe_01"%string = Some (Deque 10 steady9))
    by apply lookup_singleton_eq.
  assert (H2 : steady_store_2 !! "Drill_03"%string = Some (Deque 10 steady9))
    by apply lookup_singleton_eq.
  split; [by rewrite H1, H2|]. split; [|split].
  - apply (HW steady_store steady_store_2 _ _ 120 0 1 _ H1 H2).
  - apply (HT steady_store steady_store_2 _ _ 120 0 1 _ H1 H2).
  - apply HE. unfold window. by rewrite lookup_empty, lookup_singleton_eq.
Defined.

(** ** Rounding and the statistics *)

Lemma round_half_even_near y : Rabs (IZR (round_half_even y) - y) <= 1 / 2.
Proof.
  unfold round_half_even. destruct (base_Int_part y) as [Hlo Hhi].
  destruct (Rlt_dec (y - IZR (Int_part y)) (1 / 2)) as [Hlt|Hge].
  - apply Rabs_le. lra.
  - destruct (Rlt_dec (1 / 2) (y - IZR (Int_part y))) as [Hgt|Hle].
    + rewrite plus_IZR. apply Rabs_le. lra.
    + destruct (Z.even (Int_part y)).
      * apply Rabs_le. lra.
      * rewrite plus_IZR. apply Rabs_le. lra.
Qed.

Lemma Rabs_bound a b : Rabs a <= b -> - b <= a <= b.
Proof.
  intros H. pose proof (Rle_abs a). pose proof (Rle_abs (- a)) as Hneg.
  rewrite Rabs_Ropp in Hneg. lra.
Qed.

Lemma round_to_2_places x : to_2_places (round x 2) x.
Proof.
  unfold to_2_places, round.
  replace (10 ^ 2) with 100 by (simpl; lra).
  split; [by eexists|].
  pose proof (round_half_even_near (x * 100)) as Hnear.
  apply Rabs_le. apply Rabs_bound in Hnear. lra.
Qed.

Lemma sum_sq_dev_nonneg c (w : list R) : 0 <= sum_sq_dev c w.
Proof.
  unfold sum_sq_dev. induction w as [|x w IH]; simpl; [lra|].
  pose proof (Rle_0_sqr (x - c)) as Hsq. unfold Rsqr in Hsq. lra.
Qed.

Lemma mean_of_spec (w : list R) :
  w <> [] -> mean_of w * INR (length w) = fsum w.
Proof.
  intros Hne. unfold mean_of. pose proof (INR_length_pos w Hne). field. lra.
Qed.

Lemma stdev_of_spec (w : list R) :
  (2 <= length w)%nat ->
  0 <= stdev_of w
  /\ stdev_of w * stdev_of w * (INR (length w) - 1) = sum_sq_dev (mean_of w) w.
Proof.
  intros Hlen. unfold stdev_of.
  assert (Hn : 1 < INR (length w)).
  { change 1 with (INR 1). apply lt_INR. lia. }
  pose proof (sum_sq_dev_nonneg (mean_of w) w) as Hss.
  split; [apply sqrt_pos|].
  rewrite sqrt_sqrt.
  - field. lra.
  - apply Rmult_le_pos; [done|]. apply Rlt_le, Rinv_0_lt_compat. lra.
Qed.

(** C6.  When a call classifies a reading as anomalous, it computed, on
    the window as it stands after the append (whose last value is the
    reading): the mean [mu], with [mu * n] the sum of the window; the
    standard deviation [sd], positive, with [sd * sd * (n - 1)] the sum of
    the squared deviations from [mu]; and the z-score [(temp - mu) / sd].
    The dictionary returned carries the temperature as it came and the
    z-score and the mean rounded to two decimal places.  Holds for both
    scripts. *)
Theorem C6_statistics_of_finding :
  both (fun py => forall (st : store) machine_id temp now f,
    (detect_anomaly py machine_id temp now st).1 = Ok (true, Some f) ->
    exists d' mu sd z,
      (detect_anomaly py machine_id temp now st).2 !! machine_id = Some d'
      /\ last (items d') = Some temp
      /\ mean (items d') = Ok mu
      /\ mu * INR (length (items d')) = fsum (items d')
      /\ stdev (items d') = Ok sd
      /\ 0 < sd
      /\ sd * sd * (INR (length (items d')) - 1) = sum_sq_dev mu (items d')
      /\ truediv (temp - mu) sd = Ok z
      /\ z = (temp - mu) / sd
      /\ dict_getitem f "temperature" = Ok (VNum temp)
      /\ dict_getitem f "z_score" = Ok (VNum (round z 2))
      /\ dict_getitem f "mean_temp" = Ok (VNum (round mu 2))
      /\ to_2_places (round z 2) z
      /\ to_2_places (round mu 2) mu).
Proof.
  assert (Hcore : forall machine_id d' temp now f,
    (exists d, d' = deque_append d temp) ->
    (5 <= length (items d'))%nat ->
    stdev_of (items d') <> 0 ->
    judge machine_id (items d') temp now = (true, Some f) ->
    last (items d') = Some temp
    /\ mean_of (items d') * INR (length (items d')) = fsum (items d')
    /\ 0 < stdev_of (items d')
    /\ stdev_of (items d') * stdev_of (items d') * (INR (length (items d')) - 1)
       = sum_sq_dev (mean_of (items d')) (items d')
    /\ dict_getitem f "temperature" = Ok (VNum temp)
    /\ dict_getitem f "z_score"
       = Ok (VNum (round ((temp - mean_of (items d')) / stdev_of (items d')) 2))
    /\ dict_getitem f "mean_temp" = Ok (VNum (round (mean_of (items d')) 2))).
  { intros machine_id d' temp now f [d ->] Hlen Hsd Hj.
    apply judge_anomalous_inv in Hj as (_ & _ & _ & ->).
    destruct (stdev_of_spec (items (deque_append d temp))) as [Hpos Hsq]; [lia|].
    repeat split; try done.
    - apply last_deque_append. by apply long_nonempty.
    - apply mean_of_spec. by apply long_nonempty.
    - lra. }
  destruct statistics_exist as [HW HT].
  split; intros st machine_id temp now f Hcall.
  - destruct (HW _ _ _ _ _ Hcall)
      as (d' & Hpost & Hd & Hlen & Hmu & Hsd & Hnz & Hz & Hj).
    destruct (Hcore _ _ _ _ _ Hd Hlen Hnz Hj) as (? & ? & ? & ? & ? & ? & ?).
    exists d', (mean_of (items d')), (stdev_of (items d')),
      ((temp - mean_of (items d')) / stdev_of (items d')).
    repeat split; try done; apply round_to_2_places.
  - destruct (HT _ _ _ _ _ Hcall)
      as (d' & Hpost & Hd & Hlen & Hmu & Hsd & Hnz & Hz & Hj).
    destruct (Hcore _ _ _ _ _ Hd Hlen Hnz Hj) as (? & ? & ? & ? & ? & ? & ?).
    exists d', (mean_of (items d')), (stdev_of (items d')),
      ((temp - mean_of (items d')) / stdev_of (items d')).
    repeat split; try done; apply round_to_2_places.
Qed.

Lemma C6_witness :
  both (fun py => exists f d' mu sd z,
    (detect_anomaly py "Lathe_01" 120 0 steady_store).1 = Ok (true, Some f)
    /\ (detect_anomaly py "Lathe_01" 120 0 steady_store).2 !! "Lathe_01"%string
       = Some d'
    /\ items d' = steady9 ++ [120]
    /\ last (items d') = Some 120
    /\ mean (items d') = Ok mu
    /\ mu = 66
    /\ stdev (items d') = Ok sd
    /\ 0 < sd
    /\ sd * sd = 360
    /\ z = (120 - mu) / sd
    /\ dict_getitem f "z_score" = Ok (VNum (round z 2))
    /\ dict_getitem f "mean_temp" = Ok (VNum (round mu 2))
    /\ to_2_places (round z 2) z).
Proof.
  destruct C6_statistics_of_finding as [HW HT].
  destruct steady_call as [CW CT].
  destruct steady_store_post as [PW PT].
  split.
  - pose proof (CW 120 0) as Hcall. cbv beta in Hcall.
    rewrite steady_judge_above in Hcall by lra.
    destruct (HW _ _ _ _ _ Hcall)
      as (d' & mu & sd & z & Hpost & Hlast & Hmu & Hsum & Hsd & Hpos & Hsq & _ & Hz
          & _ & Hfz & Hfm & Hround & _).
    eexists _, d', mu, sd, z.
    assert (Hd : items d' = steady9 ++ [120]).
    { rewrite (PW 120 0) in Hpost. by injection Hpost as <-. }
    assert (Hmu66 : mu = 66).
    { rewrite Hd in Hsum. simpl in Hsum. lra. }
    rewrite Hd, Hmu66 in Hsq. unfold sum_sq_dev in Hsq. simpl in Hsq.
    split; [exact Hcall|].
    repeat split; try assumption; try lra; apply Hround.
  - pose proof (CT 120 0) as Hcall. cbv beta in Hcall.
    rewrite steady_judge_above in Hcall by lra.
    destruct (HT _ _ _ _ _ Hcall)
      as (d' & mu & sd & z & Hpost & Hlast & Hmu & Hsum & Hsd & Hpos & Hsq & _ & Hz
          & _ & Hfz & Hfm & Hround & _).
    eexists _, d', mu, sd, z.
    assert (Hd : items d' = steady9 ++ [120]).
    { rewrite (PT 120 0) in Hpost. by injection Hpost as <-. }
    assert (Hmu66 : mu = 66).
    { rewrite Hd in Hsum. simpl in Hsum. lra. }
    rewrite Hd, Hmu66 in Hsq. unfold sum_sq_dev in Hsq. simpl in Hsq.
    split; [exact Hcall|].
    repeat split; try assumption; try lra; apply Hround.
Defined.

(** The rounding of the model on examples. *)
Lemma round_half_even_eval y k :
  IZR k - 1 / 2 < y < IZR k + 1 / 2 -> round_half_even y = k.
Proof.
  intros [Hlo Hhi]. unfold round_half_even.
  destruct (base_Int_part y) as [Hf1 Hf2].
  assert (Hf : (k - 2 < Int_part y < k + 1)%Z).
  { split; apply lt_IZR; rewrite ?minus_IZR, ?plus_IZR; lra. }
  assert (Hcases : Int_part y = k \/ Int_part y = (k - 1)%Z) by lia.
  destruct Hcases as [E|E]; rewrite E in *.
  - destruct (Rlt_dec (y - IZR k) (1 / 2)); [done | lra].
  - rewrite minus_IZR in *.
    destruct (Rlt_dec (y - (IZR k - 1)) (1 / 2)); [lra|].
    destruct (Rlt_dec (1 / 2) (y - (IZR k - 1))); [lia | lra].
Qed.

Example round_mean_66 : round 66 2 = 66.
Proof.
  unfold round. replace (10 ^ 2) with 100 by (simpl; lra).
  rewrite (round_half_even_eval _ 6600); lra.
Qed.

Example round_z_score_steady : round (9 / 10 * sqrt 10) 2 = 2.85.
Proof.
  assert (Hs : 3.1612 < sqrt 10 < 3.172).
  { split.
    - replace 3.1612 with (sqrt (3.1612 * 3.1612)) by (apply sqrt_square; lra).
      apply sqrt_lt_1; lra.
    - replace 3.172 with (sqrt (3.172 * 3.172)) by (apply sqrt_square; lra).
      apply sqrt_lt_1; lra. }
  unfold round. replace (10 ^ 2) with 100 by (simpl; lra).
  rewrite (round_half_even_eval _ 285); lra.
Qed.

(** ** Alerts *)

Lemma steady_judge_120 machine_id now :
  judge machine_id (steady9 ++ [120]) 120 now
  = (true, Some [ ("machine_id", VStr machine_id);
                  ("temperature", VNum 120);
                  ("z_score", VNum 2.85);
                  ("mean_temp", VNum 66);
                  ("anomaly_reason", VStr "HIGH_TEMP");
                  ("timestamp", VNum now) ]%string).
Proof.
  rewrite steady_judge_above by lra.
  rewrite round_z_score_steady.
  replace (60 + (120 - 60) / 10) with 66 by lra.
  rewrite round_mean_66.
  by rewrite (proj2 (gtb_true 120 75)) by lra.
Qed.

(** The scenario of the specification: nine readings of 60, then 120. *)
Example steady_then_120 :
  both (fun py =>
    (detect_anomaly py "Lathe_01" 120 7 steady_store).1
    = Ok (true, Some [ ("machine_id", VStr "Lathe_01");
                       ("temperature", VNum 120);
                       ("z_score", VNum 2.85);
                       ("mean_temp", VNum 66);
                       ("anomaly_reason", VStr "HIGH_TEMP");
                       ("timestamp", VNum 7) ]%string)).
Proof.
  destruct steady_call as [CW CT].
  split; cbv beta; [rewrite CW | rewrite CT]; by rewrite steady_judge_120.
Qed.

(** The two scripts format alerts alike. *)
Lemma generate_alert_same anomaly_data :
  temperature.generate_alert anomaly_data = Warning_system.generate_alert anomaly_data.
Proof. reflexivity. Qed.

(** Whatever dictionary it is given, [generate_alert] emits the six fields
    and no other. *)
Lemma generate_alert_keys anomaly_data alert :
  Warning_system.generate_alert anomaly_data = Ok alert ->
  dict_keys alert
  = ["type"; "machine"; "temperature"; "z_score"; "reason"; "timestamp"]%string
  /\ dict_getitem alert "type" = Ok (VStr "TEMP_ANOMALY")
  /\ dict_getitem alert "machine" = dict_getitem anomaly_data "machine_id"
  /\ dict_getitem alert "temperature" = dict_getitem anomaly_data "temperature"
  /\ dict_getitem alert "z_score" = dict_getitem anomaly_data "z_score"
  /\ dict_getitem alert "reason" = dict_getitem anomaly_data "anomaly_reason"
  /\ dict_getitem alert "timestamp" = dict_getitem anomaly_data "timestamp"
  /\ dict_getitem alert "cycle_id" = Raise (KeyError "cycle_id").
Proof.
  unfold Warning_system.generate_alert.
  destruct (dict_getitem anomaly_data "machine_id"),
    (dict_getitem anomaly_data "temperature"),
    (dict_getitem anomaly_data "z_score"),
    (dict_getitem anomaly_data "anomaly_reason"),
    (dict_getitem anomaly_data "timestamp");
    intros H; try discriminate H.
  injection H as <-. repeat split.
Qed.

(** Every alert that [process_simulation_output] prints has the six fields
    and no [cycle_id]. *)
Lemma process_simulation_output_keys parsed now (st : store) alert :
  (Warning_system_driver.process_simulation_output parsed now st).1 = Ok (Some alert) ->
  dict_keys alert
  = ["type"; "machine"; "temperature"; "z_score"; "reason"; "timestamp"]%string
  /\ dict_getitem alert "type" = Ok (VStr "TEMP_ANOMALY")
  /\ dict_getitem alert "cycle_id" = Raise (KeyError "cycle_id").
Proof.
  unfold Warning_system_driver.process_simulation_output.
  destruct parsed as [[| | | |data]|[]]; try done.
  destruct (dict_get data "spindle_temp" VNone) as [| |temp| |]; try done;
    destruct (dict_get data "machine" (VStr "CNC_Mill_1")) as [| | |machine_id|];
    try done.
  unfold bind at 1. rewrite Warning_system_run.
  destruct (judge machine_id _ temp now) as [[|] [f|]]; try done.
  unfold bind, lift, ret. simpl.
  destruct (Warning_system.generate_alert _) as [a|] eqn:Ha; simpl; [|done].
  intros [= <-]. apply generate_alert_keys in Ha. tauto.
Qed.

(** C7, at the failing input.  The line carries [cycle_id] 7 and the
    caller merges it into the dictionary it hands to [generate_alert], but
    the alert printed has the six fields only. *)
Theorem C7_alert_drops_cycle_id :
  dict_getitem spike_data "cycle_id" = Ok (VNum 7)
  /\ (Warning_system_driver.process_simulation_output
        (Ok (VDict spike_data)) 1 steady_store).1
     = Ok (Some [ ("type", VStr "TEMP_ANOMALY");
                  ("machine", VStr "Lathe_01");
                  ("temperature", VNum 120);
                  ("z_score", VNum 2.85);
                  ("reason", VStr "HIGH_TEMP");
                  ("timestamp", VNum 1) ]%string).
Proof.
  split; [reflexivity|].
  unfold Warning_system_driver.process_simulation_output.
  change (dict_get spike_data "spindle_temp" VNone) with (VNum 120).
  change (dict_get spike_data "machine" (VStr "CNC_Mill_1")) with (VStr "Lathe_01").
  change (dict_get spike_data "cycle_id" VNone) with (VNum 7).
  cbv iota beta.
  unfold bind at 1. rewrite Warning_system_run.
  unfold window. rewrite steady_store_lookup.
  change (items (deque_append (default (deque_new Warning_system.WINDOW_SIZE)
                                 (Some (Deque 10 steady9))) 120))
    with (steady9 ++ [120]).
  rewrite steady_judge_120. reflexivity.
Qed.

(** * Further properties of the code *)

(** ** When the deviation is zero *)

Lemma sum_sq_dev_zero c (w : list R) : sum_sq_dev c w = 0 -> Forall (eq c) w.
Proof.
  unfold sum_sq_dev. induction w as [|x w IH]; simpl; intros Hz; [constructor|].
  pose proof (sum_sq_dev_nonneg c w) as Hw. unfold sum_sq_dev in Hw.
  pose proof (Rle_0_sqr (x - c)) as Hx. unfold Rsqr in Hx.
  constructor.
  - assert (Hsq : (x - c) * (x - c) = 0) by lra.
    apply Rmult_integral in Hsq. lra.
  - apply IH. lra.
Qed.

Lemma stdev_of_zero (w : list R) :
  (2 <= length w)%nat -> stdev_of w = 0 -> Forall (eq (mean_of w)) w.
Proof.
  intros Hlen Hz. apply sum_sq_dev_zero.
  destruct (stdev_of_spec w Hlen) as [_ Hsq]. rewrite Hz in Hsq. lra.
Qed.

Lemma post_window_is_append :
  both (fun py => forall (st : store) machine_id temp now d',
    (detect_anomaly py machine_id temp now st).2 !! machine_id = Some d' ->
    exists d, d' = deque_append d temp).
Proof.
  split; simpl; intros st machine_id temp now d' Hpost.
  - apply Warning_system_post in Hpost. eauto.
  - apply temperature_post in Hpost as (d & _ & -> & _). eauto.
Qed.

Lemma judge_over_threshold machine_id (w : list R) temp now :
  (5 <= length w)%nat -> last w = Some temp -> 75 < temp ->
  (Forall (eq temp) w -> judge machine_id w temp now = (false, None))
  /\ (~ Forall (eq temp) w ->
      exists f, judge machine_id w temp now = (true, Some f)
                /\ reason_of f = Ok (VStr "HIGH_TEMP")).
Proof.
  intros Hlen Hlast Ht. split.
  - intros Hc. apply (judge_constant _ temp); [by apply long_nonempty | done].
  - intros Hnc. unfold judge.
    destruct (length w <? 5)%nat eqn:Hn; [apply Nat.ltb_lt in Hn; lia|].
    destruct (eqb (stdev_of w) 0) eqn:Hsd.
    + exfalso. apply Hnc. apply eqb_true in Hsd.
      apply stdev_of_zero in Hsd; [|lia].
      assert (Hin : temp ∈ w).
      { apply last_Some in Hlast as [w' ->]. set_solver. }
      rewrite Forall_forall in Hsd. pose proof (Hsd _ Hin) as Hm.
      apply Forall_forall. intros x Hx. rewrite <- Hm. by apply Hsd.
    + rewrite (proj2 (gtb_true temp 75)) by done. simpl.
      eexists. split; reflexivity.
Qed.

(** X1.  Once the window of the source holds at least five values, a
    call for a reading above [TEMP_THRESHOLD] that returns, returns
    [(False, None)] exactly when every value of the window equals the
    reading; on any other window the reading is flagged, with reason
    [HIGH_TEMP].  Holds for both scripts. *)
Theorem over_threshold_flagged_unless_constant :
  both (fun py => forall (st : store) machine_id temp now d' v,
    (detect_anomaly py machine_id temp now st).2 !! machine_id = Some d' ->
    (5 <= length (items d'))%nat ->
    TEMP_THRESHOLD py < temp ->
    (detect_anomaly py machine_id temp now st).1 = Ok v ->
    (Forall (eq temp) (items d') -> v = (false, None))
    /\ (~ Forall (eq temp) (items d') ->
        exists f, v = (true, Some f) /\ reason_of f = Ok (VStr "HIGH_TEMP"))).
Proof.
  destruct verdict_of_post_window as [HW HT].
  destruct post_window_is_append as [AW AT].
  split; intros st machine_id temp now d' v Hpost Hlen Hthr.
  - rewrite (HW _ _ _ _ _ Hpost). intros [= <-].
    destruct (AW _ _ _ _ _ Hpost) as [d ->].
    by apply judge_over_threshold; [|apply last_deque_append, long_nonempty|].
  - rewrite (HT _ _ _ _ _ Hpost). intros [= <-].
    destruct (AT _ _ _ _ _ Hpost) as [d ->].
    by apply judge_over_threshold; [|apply last_deque_append, long_nonempty|].
Qed.

Lemma over_threshold_flagged_unless_constant_witness :
  (exists f,
      (Warning_system.detect_anomaly "Lathe_01" 120 0 steady_store).1 = Ok (true, Some f)
      /\ reason_of f = Ok (VStr "HIGH_TEMP"))
  /\ (exists f,
      (temperature.detect_anomaly "Lathe_01" 120 0 steady_store).1 = Ok (true, Some f)
      /\ reason_of f = Ok (VStr "HIGH_TEMP"))
  /\ (temperature.detect_anomaly "Lathe_01" 80 0
        {[ "Lathe_01"%string := Deque 10 [80; 80; 80; 80] ]}).1 = Ok (false, None).
Proof.
  destruct over_threshold_flagged_unless_constant as [HW HT].
  destruct steady_store_post as [PW PT].
  destruct steady_call as [CW CT].
  assert (Hnc : ~ Forall (eq 120) (steady9 ++ [120])).
  { intros Hc. apply Forall_inv in Hc. lra. }
  assert (Hlen : (5 <= length (items (Deque 10 (steady9 ++ [120%R]))))%nat)
    by (simpl; lia).
  split; [|split].
  - pose proof (CW 120 0) as Hcall. cbv beta in Hcall.
    assert (Hthr : TEMP_THRESHOLD Warning_system_py < 120).
    { unfold TEMP_THRESHOLD. simpl. unfold Warning_system.TEMP_THRESHOLD. lra. }
    destruct (HW steady_store "Lathe_01"%string 120 0 (Deque 10 (steady9 ++ [120]))
                _ (PW 120 0) Hlen Hthr Hcall) as [_ Hflag].
    destruct (Hflag Hnc) as (f & Hf & Hr).
    exists f. split; [|exact Hr].
    unfold detect_anomaly, Warning_system_py in Hcall. by rewrite Hcall, Hf.
  - pose proof (CT 120 0) as Hcall. cbv beta in Hcall.
    assert (Hthr : TEMP_THRESHOLD temperature_py < 120).
    { unfold TEMP_THRESHOLD. simpl. unfold temperature.TEMP_THRESHOLD. lra. }
    destruct (HT steady_store "Lathe_01"%string 120 0 (Deque 10 (steady9 ++ [120]))
                _ (PT 120 0) Hlen Hthr Hcall) as [_ Hflag].
    destruct (Hflag Hnc) as (f & Hf & Hr).
    exists f. split; [|exact Hr].
    unfold detect_anomaly, temperature_py in Hcall. by rewrite Hcall, Hf.
  - assert (Hpost : (temperature.detect_anomaly "Lathe_01" 80 0
                       {[ "Lathe_01"%string := Deque 10 [80; 80; 80; 80] ]}).2
                    !! "Lathe_01"%string = Some (Deque 10 [80; 80; 80; 80; 80])).
    { rewrite temperature_run, lookup_singleton_eq. simpl.
      rewrite lookup_insert_eq. reflexivity. }
    destruct (temperature.detect_anomaly "Lathe_01" 80 0
                {[ "Lathe_01"%string := Deque 10 [80; 80; 80; 80] ]}).1
      as [v|e] eqn:Hcall.
    + f_equal.
      apply (HT {[ "Lathe_01"%string := Deque 10 [80; 80; 80; 80] ]}
               "Lathe_01"%string 80 0 (Deque 10 [80; 80; 80; 80; 80]) v Hpost).
      * simpl. lia.
      * unfold TEMP_THRESHOLD. simpl. unfold temperature.TEMP_THRESHOLD. lra.
      * exact Hcall.
      * repeat constructor.
    + exfalso. rewrite temperature_run, lookup_singleton_eq in Hcall.
      discriminate Hcall.
Defined.

(** ** Streams that cannot be flagged *)

Lemma deque_append_constant c d :
  Forall (eq c) (items d) -> Forall (eq c) (items (deque_append d c)).
Proof.
  intros Hc. unfold deque_append. simpl.
  assert (Hall : Forall (eq c) (items d ++ [c])).
  { apply Forall_app. split; [done | by repeat constructor]. }
  destruct (maxlen d <? length (items d ++ [c]))%nat; [|done].
  destruct (items d ++ [c]) as [|y ys]; [done|]. simpl. by inversion Hall.
Qed.

Lemma judge_constant_any machine_id c (w : list R) temp now :
  Forall (eq c) w -> judge machine_id w temp now = (false, None).
Proof.
  intros Hc. destruct w as [|x w].
  - apply judge_warm_up. simpl. lia.
  - by apply (judge_constant _ c).
Qed.

Section Constant_sources.

Variable level : string -> R.

Lemma Warning_system_levelled r (st : store) :
  levelled level st -> value r = level (source r) ->
  (Warning_system.detect_anomaly (source r) (value r) (clock r) st).1
  = Ok (false, None)
  /\ levelled level (Warning_system.detect_anomaly (source r) (value r) (clock r) st).2.
Proof.
  intros Hst Hr. rewrite Warning_system_run. simpl.
  assert (Hw : Forall (eq (level (source r)))
                 (items (deque_append (window st (source r)) (value r)))).
  { rewrite Hr. apply deque_append_constant. unfold window.
    destruct (st !! source r) as [d|] eqn:Hd; simpl; [by apply (Hst _ _ Hd) | done]. }
  split.
  - f_equal. by apply (judge_constant_any _ (level (source r))).
  - intros m d. destruct (decide (source r = m)) as [<-|Hne].
    + rewrite lookup_insert_eq. by intros [= <-].
    + rewrite lookup_insert_ne by done. apply Hst.
Qed.

Lemma temperature_levelled r (st : store) :
  levelled level st -> value r = level (source r) ->
  (forall v, (temperature.detect_anomaly (source r) (value r) (clock r) st).1 = Ok v ->
             v = (false, None))
  /\ levelled level (temperature.detect_anomaly (source r) (value r) (clock r) st).2.
Proof.
  intros Hst Hr. rewrite temperature_run.
  destruct (st !! source r) as [d0|] eqn:Hd0; simpl; [|done].
  assert (Hw : Forall (eq (level (source r))) (items (deque_append d0 (value r)))).
  { rewrite Hr. apply deque_append_constant. by apply (Hst _ _ Hd0). }
  split.
  - intros v [= <-]. by apply (judge_constant_any _ (level (source r))).
  - intros m d. destruct (decide (source r = m)) as [<-|Hne].
    + rewrite lookup_insert_eq. by intros [= <-].
    + rewrite lookup_insert_ne by done. apply Hst.
Qed.

Lemma feed_levelled detect :
  (forall r (st : store),
      levelled level st -> value r = level (source r) ->
      (forall v, (detect (source r) (value r) (clock r) st).1 = Ok v ->
                 v = (false, None))
      /\ levelled level (detect (source r) (value r) (clock r) st).2) ->
  forall rs (st : store),
    levelled level st ->
    Forall (fun r => value r = level (source r)) rs ->
    Forall (fun out => forall v, out = Ok v -> v = (false, None)) (feed detect rs st).1.
Proof.
  intros Hstep rs. induction rs as [|r rs IH]; intros st Hst Hrs.
  - simpl. constructor.
  - rewrite feed_cons. simpl. inversion Hrs as [|? ? Hr Hrs']; subst.
    destruct (Hstep r st Hst Hr) as [Hout Hst'].
    constructor; [exact Hout | by apply IH].
Qed.

End Constant_sources.

(** X3.  A stream in which every source always reports one and the same
    temperature, its level, is never flagged, however long the stream and
    however high the levels, provided the windows to start with hold
    nothing else; at the start of either script they are empty.  Holds for
    both scripts. *)
Theorem constant_sources_never_flagged :
  both (fun py => forall (level : string -> R) (rs : list reading) (st : store),
    levelled level st ->
    Forall (fun r => value r = level (source r)) rs ->
    Forall (fun out => forall v, out = Ok v -> v = (false, None))
           (feed (detect_anomaly py) rs st).1).
Proof.
  split; intros level rs st Hst Hrs; simpl.
  - apply (feed_levelled level); [|done|done].
    intros r st' Hst' Hr.
    destruct (Warning_system_levelled level r st' Hst' Hr) as [Hout Hpost].
    split; [|done]. intros v. rewrite Hout. by intros [= <-].
  - apply (feed_levelled level); [|done|done].
    intros r st' Hst' Hr. by apply temperature_levelled.
Qed.

Lemma constant_sources_never_flagged_witness :
  75 < 80
  /\ Forall (fun out => forall v, out = Ok v -> v = (false, None))
       (feed Warning_system.detect_anomaly hot_readings
          Warning_system.machine_temp_data).1
  /\ Forall (fun out => forall v, out = Ok v -> v = (false, None))
       (feed temperature.detect_anomaly hot_readings
          temperature.machine_temp_data).1.
Proof.
  destruct constant_sources_never_flagged as [HW HT].
  assert (Hrs : Forall (fun r => value r = 80) hot_readings)
    by (repeat constructor).
  split; [lra|]. split.
  - apply (HW (fun _ => 80) hot_readings Warning_system.machine_temp_data);
      [|exact Hrs].
    intros m d Hd. unfold Warning_system.machine_temp_data in Hd.
    by rewrite lookup_empty in Hd.
  - apply (HT (fun _ => 80) hot_readings temperature.machine_temp_data);
      [|exact Hrs].
    intros m d Hd. rewrite (temperature_initial_windows _ _ Hd). constructor.
Defined.

Lemma most_recent_short n (vs : list R) k :
  (length vs <= k)%nat -> (length (most_recent n vs) <= k)%nat.
Proof. rewrite most_recent_length. lia. Qed.

Lemma deque_append_length d x :
  (length (items (deque_append d x)) <= S (length (items d)))%nat.
Proof.
  unfold deque_append. simpl.
  destruct (maxlen d <? length (items d ++ [x]))%nat.
  - destruct (items d ++ [x]) as [|y ys] eqn:E; simpl; [lia|].
    apply (f_equal length) in E. rewrite length_app in E. simpl in E. lia.
  - rewrite length_app. simpl. lia.
Qed.

(** X4.  From the start of either script, the first four readings of
    every source are never flagged, whatever their values and however the
    readings of the sources interleave: a call for a source that sent fewer
    than four readings before returns [(False, None)] if it returns.  Holds
    for both scripts. *)
Theorem first_four_readings_never_flagged :
  both (fun py => forall (before : list reading) (r : reading),
    (length (of_source (source r) before) < 4)%nat ->
    forall v,
      (detect_anomaly py (source r) (value r) (clock r)
         (feed (detect_anomaly py) before (machine_temp_data py)).2).1 = Ok v ->
      v = (false, None)).
Proof.
  assert (Hshort : forall m (hist : list reading) d x machine_id temp now,
    shows 10 hist m d -> (length (of_source m hist) < 4)%nat ->
    judge machine_id (items (deque_append d x)) temp now = (false, None)).
  { intros m hist d x machine_id temp now Hd Hlen. apply judge_warm_up.
    unfold shows in Hd. subst d.
    pose proof (deque_append_length
                  (Deque 10 (most_recent 10 (temps (of_source m hist)))) x) as Happ.
    cbn [items] in Happ.
    pose proof (most_recent_short 10 (temps (of_source m hist)) 3) as Hmr.
    unfold temps in Hmr at 1. rewrite length_map in Hmr. lia. }
  split; intros before r Hlen v; simpl.
  - rewrite Warning_system_run. simpl. intros [= <-].
    apply (Hshort (source r) before); [|done].
    apply (Warning_system_feed_shows before Warning_system.machine_temp_data []
             (fun m => eq_refl)).
  - rewrite temperature_run.
    destruct (_ !! source r) as [d|] eqn:Hd; simpl; [|done].
    intros [= <-]. apply (Hshort (source r) before); [|done].
    apply (temperature_feed_shows before temperature.machine_temp_data [])
      in Hd; [done|].
    intros m' d' Hd'. by rewrite (temperature_initial_windows _ _ Hd').
Qed.

Lemma first_four_readings_never_flagged_witness :
  (Warning_system.detect_anomaly "Lathe_01" 1000 9
     (feed Warning_system.detect_anomaly
        [Reading "Lathe_01" 60 0; Reading "Drill_03" 61 1; Reading "Lathe_01" 59 2;
         Reading "Drill_03" 62 3; Reading "Lathe_01" 60 4]
        Warning_system.machine_temp_data).2).1 = Ok (false, None).
Proof.
  destruct first_four_readings_never_flagged as [HW _].
  pose proof (HW [Reading "Lathe_01" 60 0; Reading "Drill_03" 61 1;
                  Reading "Lathe_01" 59 2; Reading "Drill_03" 62 3;
                  Reading "Lathe_01" 60 4]
                 (Reading "Lathe_01" 1000 9)) as H.
  simpl source in H. simpl value in H. simpl clock in H.
  assert (Hlen : (length (of_source "Lathe_01"
                    [Reading "Lathe_01" 60 0; Reading "Drill_03" 61 1;
                     Reading "Lathe_01" 59 2; Reading "Drill_03" 62 3;
                     Reading "Lathe_01" 60 4]) < 4)%nat).
  { vm_compute. lia. }
  specialize (H Hlen).
  destruct (Warning_system.detect_anomaly "Lathe_01" 1000 9 _).1 as [v|e] eqn:E.
  - f_equal. by apply H.
  - exfalso. rewrite Warning_system_run in E. discriminate E.
Defined.

(** ** Dictionaries and alerts *)

Lemma dict_getitem_raise (d : pydict) k e :
  dict_getitem d k = Raise e -> e = KeyError k /\ k ∉ dict_keys d.
Proof.
  induction d as [|[k' v] d IH]; simpl.
  - intros [= <-]. split; [done | apply not_elem_of_nil].
  - destruct (String.eqb k' k) eqn:E; [done|].
    apply String.eqb_neq in E. intros H. destruct (IH H) as [-> Hnin].
    split; [done|]. rewrite not_elem_of_cons. split; [congruence | done].
Qed.

Lemma dict_getitem_ok (d : pydict) k v :
  dict_getitem d k = Ok v -> k ∈ dict_keys d.
Proof.
  induction d as [|[k' v'] d IH]; simpl; [done|].
  destruct (String.eqb k' k) eqn:E.
  - apply String.eqb_eq in E. subst. intros _. apply list_elem_of_here.
  - intros H. apply list_elem_of_further. by apply IH.
Qed.

Lemma dict_getitem_present (d : pydict) k :
  k ∈ dict_keys d -> exists v, dict_getitem d k = Ok v.
Proof.
  intros Hin. destruct (dict_getitem d k) as [v|e] eqn:E; [eauto|].
  apply dict_getitem_raise in E as [_ Hnin]. done.
Qed.

Lemma dict_getitem_absent (d : pydict) k :
  k ∉ dict_keys d -> dict_getitem d k = Raise (KeyError k).
Proof.
  intros Hnin. destruct (dict_getitem d k) as [v|e] eqn:E.
  - apply dict_getitem_ok in E. done.
  - apply dict_getitem_raise in E as [-> _]. done.
Qed.

Lemma dict_getitem_setitem_eq (d : pydict) k v :
  dict_getitem (dict_setitem d k v) k = Ok v.
Proof.
  induction d as [|[k' v'] d IH]; simpl.
  - by rewrite String.eqb_refl.
  - destruct (String.eqb k' k) eqn:E; simpl; by rewrite E.
Qed.

Lemma dict_getitem_setitem_ne (d : pydict) k v k' :
  k <> k' -> dict_getitem (dict_setitem d k v) k' = dict_getitem d k'.
Proof.
  intros Hne. induction d as [|[k0 v0] d IH]; simpl.
  - apply String.eqb_neq in Hne. by rewrite Hne.
  - destruct (String.eqb k0 k) eqn:E; simpl.
    + apply String.eqb_eq in E. subst k0.
      apply String.eqb_neq in Hne. by rewrite Hne.
    + destruct (String.eqb k0 k'); [done | apply IH].
Qed.

(** X5.  [generate_alert] reads five keys and nothing else: setting any
    other key of the dictionary it is given, to any value, changes neither
    the alert it emits nor the exception it raises.  So no key that a
    caller adds ([cycle_id]) and no [mean_temp] reaches the alert.  Holds
    for both scripts. *)
Theorem generate_alert_ignores_other_keys :
  forall (anomaly_data : pydict) (k : string) (v : pyval),
    k ∉ required_keys ->
    Warning_system.generate_alert (dict_setitem anomaly_data k v)
    = Warning_system.generate_alert anomaly_data
    /\ temperature.generate_alert (dict_setitem anomaly_data k v)
       = temperature.generate_alert anomaly_data.
Proof.
  intros anomaly_data k v Hk.
  unfold required_keys in Hk. rewrite !not_elem_of_cons in Hk.
  destruct Hk as (H1 & H2 & H3 & H4 & H5 & _).
  unfold Warning_system.generate_alert, temperature.generate_alert.
  by rewrite !dict_getitem_setitem_ne by done.
Qed.

Lemma generate_alert_ignores_other_keys_witness :
  Warning_system.generate_alert
    (dict_setitem [("machine_id", VStr "Lathe_01"); ("temperature", VNum 120);
                   ("z_score", VNum 2.85); ("mean_temp", VNum 66);
                   ("anomaly_reason", VStr "HIGH_TEMP"); ("timestamp", VNum 1)]%string
       "cycle_id" (VNum 7))
  = Ok [("type", VStr "TEMP_ANOMALY"); ("machine", VStr "Lathe_01");
        ("temperature", VNum 120); ("z_score", VNum 2.85);
        ("reason", VStr "HIGH_TEMP"); ("timestamp", VNum 1)]%string.
Proof.
  destruct (generate_alert_ignores_other_keys
              [("machine_id", VStr "Lathe_01"); ("temperature", VNum 120);
               ("z_score", VNum 2.85); ("mean_temp", VNum 66);
               ("anomaly_reason", VStr "HIGH_TEMP"); ("timestamp", VNum 1)]%string
              "cycle_id" (VNum 7)) as [HW _].
  - unfold required_keys. rewrite !not_elem_of_cons. repeat split; try done.
    apply not_elem_of_nil.
  - rewrite HW. reflexivity.
Defined.

Lemma generate_alert_first_missing (anomaly_data : pydict) before k after :
  required_keys = before ++ k :: after ->
  (forall k', k' ∈ before -> k' ∈ dict_keys anomaly_data) ->
  k ∉ dict_keys anomaly_data ->
  Warning_system.generate_alert anomaly_data = Raise (KeyError k).
Proof.
  intros Hsplit Hbefore Hk.
  apply dict_getitem_absent in Hk.
  assert (Hpresent : forall k', k' ∈ before ->
            exists v, dict_getitem anomaly_data k' = Ok v).
  { intros k' Hin. by apply dict_getitem_present, Hbefore. }
  clear Hbefore.
  unfold required_keys in Hsplit. unfold Warning_system.generate_alert.
  destruct before as [|b1 [|b2 [|b3 [|b4 [|b5 rest]]]]];
    simplify_eq/=; try (by destruct rest);
    rewrite Hk;
    repeat (match goal with
            | |- context [dict_getitem anomaly_data ?k0] =>
                destruct (Hpresent k0) as [? ->]; [by repeat constructor|]
            end);
    repeat (match goal with
            | |- context [dict_getitem anomaly_data ?k0] =>
                destruct (dict_getitem anomaly_data k0)
            end);
    reflexivity.
Qed.

(** X6.  [generate_alert] emits an alert, with the six alert keys, when
    the dictionary has all five keys it reads; otherwise it raises
    [KeyError] for the first of them, in reading order, that is missing.
    Holds for both scripts. *)
Theorem generate_alert_key_errors :
  forall anomaly_data : pydict,
    ((forall k, k ∈ required_keys -> k ∈ dict_keys anomaly_data) ->
     exists alert,
       Warning_system.generate_alert anomaly_data = Ok alert
       /\ temperature.generate_alert anomaly_data = Ok alert
       /\ dict_keys alert = alert_keys)
    /\ (forall before k after,
         required_keys = before ++ k :: after ->
         (forall k', k' ∈ before -> k' ∈ dict_keys anomaly_data) ->
         k ∉ dict_keys anomaly_data ->
         Warning_system.generate_alert anomaly_data = Raise (KeyError k)
         /\ temperature.generate_alert anomaly_data = Raise (KeyError k)).
Proof.
  intros anomaly_data. split.
  - intros Hall.
    destruct (Warning_system.generate_alert anomaly_data) as [alert|e] eqn:E.
    + exists alert.
      change (temperature.generate_alert anomaly_data)
        with (Warning_system.generate_alert anomaly_data).
      rewrite E. apply generate_alert_keys in E as [Hkeys _]. done.
    + exfalso. revert E. unfold Warning_system.generate_alert.
      repeat (match goal with
              | |- context [dict_getitem anomaly_data ?k0] =>
                  destruct (dict_getitem_present anomaly_data k0) as [? ->];
                  [apply Hall; unfold required_keys; by repeat constructor|]
              end).
      done.
  - intros before k after Hsplit Hbefore Hk.
    change (temperature.generate_alert anomaly_data)
      with (Warning_system.generate_alert anomaly_data).
    split; by apply (generate_alert_first_missing _ before k after).
Qed.

Lemma generate_alert_key_errors_witness :
  Warning_system.generate_alert
    [("machine_id", VStr "Lathe_01"); ("temperature", VNum 120);
     ("timestamp", VNum 1)]%string
  = Raise (KeyError "z_score")
  /\ exists alert,
       temperature.generate_alert
         [("machine_id", VStr "Lathe_01"); ("temperature", VNum 120);
          ("z_score", VNum 2.85); ("mean_temp", VNum 66);
          ("anomaly_reason", VStr "HIGH_TEMP"); ("timestamp", VNum 1)]%string
       = Ok alert
       /\ dict_keys alert = alert_keys.
Proof.
  split.
  - destruct (generate_alert_key_errors
                [("machine_id", VStr "Lathe_01"); ("temperature", VNum 120);
                 ("timestamp", VNum 1)]%string) as [_ Herr].
    apply (Herr ["machine_id"; "temperature"]%string "z_score"%string
                ["anomaly_reason"; "timestamp"]%string).
    + reflexivity.
    + intros k'. rewrite !elem_of_cons, elem_of_nil.
      intros [->|[->|[]]]; simpl; by repeat constructor.
    + simpl. rewrite !not_elem_of_cons. repeat split; try done.
      apply not_elem_of_nil.
  - destruct (generate_alert_key_errors
                [("machine_id", VStr "Lathe_01"); ("temperature", VNum 120);
                 ("z_score", VNum 2.85); ("mean_temp", VNum 66);
                 ("anomaly_reason", VStr "HIGH_TEMP"); ("timestamp", VNum 1)]%string)
      as [Hok _].
    destruct Hok as (alert & _ & HT & Hkeys).
    + intros k. unfold required_keys. rewrite !elem_of_cons, elem_of_nil.
      intros [->|[->|[->|[->|[->|[]]]]]]; simpl; by repeat constructor.
    + by exists alert.
Defined.

Lemma judge_alert machine_id (w : list R) temp now f :
  judge machine_id w temp now = (true, Some f) ->
  exists z reason,
    dict_getitem f "z_score" = Ok (VNum z)
    /\ reason_of f = Ok (VStr reason)
    /\ Warning_system.generate_alert f
       = Ok [ ("type", VStr "TEMP_ANOMALY");
              ("machine", VStr machine_id);
              ("temperature", VNum temp);
              ("z_score", VNum z);
              ("reason", VStr reason);
              ("timestamp", VNum now) ]%string.
Proof.
  intros Hj. apply judge_anomalous_inv in Hj as (_ & _ & _ & ->).
  eexists _, _. repeat split.
Qed.

(** X7.  The dictionary of every anomalous verdict makes an alert:
    [generate_alert] does not raise on it, and the alert names the machine
    and the temperature of the call, the clock value the call read, and
    the rounded z-score and the reason of the verdict.  Holds for both
    scripts. *)
Theorem alert_of_every_finding :
  both (fun py => forall (st : store) machine_id temp now f,
    (detect_anomaly py machine_id temp now st).1 = Ok (true, Some f) ->
    exists z reason,
      dict_getitem f "z_score" = Ok (VNum z)
      /\ reason_of f = Ok (VStr reason)
      /\ Warning_system.generate_alert f
         = Ok [ ("type", VStr "TEMP_ANOMALY");
                ("machine", VStr machine_id);
                ("temperature", VNum temp);
                ("z_score", VNum z);
                ("reason", VStr reason);
                ("timestamp", VNum now) ]%string
      /\ temperature.generate_alert f = Warning_system.generate_alert f).
Proof.
  destruct call_inversion as [HW HT].
  split; intros st machine_id temp now f Hcall.
  - destruct (HW _ _ _ _ _ Hcall) as (d & _ & Hj). symmetry in Hj.
    destruct (judge_alert _ _ _ _ _ Hj) as (z & reason & ? & ? & ?).
    by exists z, reason.
  - destruct (HT _ _ _ _ _ Hcall) as (d & _ & Hj). symmetry in Hj.
    destruct (judge_alert _ _ _ _ _ Hj) as (z & reason & ? & ? & ?).
    by exists z, reason.
Qed.

Lemma alert_of_every_finding_witness :
  exists f,
    (temperature.detect_anomaly "Lathe_01" 120 7 steady_store).1 = Ok (true, Some f)
    /\ temperature.generate_alert f
       = Ok [ ("type", VStr "TEMP_ANOMALY");
              ("machine", VStr "Lathe_01");
              ("temperature", VNum 120);
              ("z_score", VNum 2.85);
              ("reason", VStr "HIGH_TEMP");
              ("timestamp", VNum 7) ]%string.
Proof.
  destruct alert_of_every_finding as [_ HT].
  destruct steady_call as [_ CT].
  pose proof (CT 120 7) as Hcall. cbv beta in Hcall.
  unfold detect_anomaly, temperature_py in Hcall.
  rewrite steady_judge_120 in Hcall.
  eexists. split; [exact Hcall|].
  destruct (HT _ _ _ _ _ Hcall) as (z & reason & Hz & Hr & Halert & Hsame).
  change (temperature.generate_alert ?d) with (Warning_system.generate_alert d).
  rewrite Halert.
  injection Hz as <-. injection Hr as <-. reflexivity.
Defined.

(** ** One line of the simulation *)

Lemma generate_alert_cycle_id (anomaly_data : pydict) v :
  Warning_system.generate_alert (dict_setitem anomaly_data "cycle_id" v)
  = Warning_system.generate_alert anomaly_data.
Proof.
  unfold Warning_system.generate_alert.
  by rewrite !dict_getitem_setitem_ne by done.
Qed.

Lemma judge_shape machine_id (w : list R) temp now :
  judge machine_id w temp now = (false, None)
  \/ exists f alert,
       judge machine_id w temp now = (true, Some f)
       /\ Warning_system.generate_alert f = Ok alert.
Proof.
  destruct (judge machine_id w temp now) as [b o] eqn:Hj.
  unfold judge in Hj.
  destruct (length w <? 5)%nat; [left; congruence|].
  destruct (eqb (stdev_of w) 0); [left; congruence|].
  destruct (gtb temp 75 || gtb _ 2.5); [|left; congruence].
  right. injection Hj as <- <-. eexists _, _. split; reflexivity.
Qed.

Lemma process_simulation_output_reading data temp machine_id now (st : store) :
  dict_get data "spindle_temp" VNone = VNum temp ->
  dict_get data "machine" (VStr "CNC_Mill_1") = VStr machine_id ->
  Warning_system_driver.process_simulation_output (Ok (VDict data)) now st
  = (Ok (alert_of (Warning_system.detect_anomaly machine_id temp now st).1),
     (Warning_system.detect_anomaly machine_id temp now st).2).
Proof.
  intros Htemp Hmachine.
  unfold Warning_system_driver.process_simulation_output.
  rewrite Htemp, Hmachine. unfold bind at 1.
  rewrite Warning_system_run. cbv beta iota.
  destruct (judge_shape machine_id
              (items (deque_append (window st machine_id) temp)) temp now)
    as [Hj|(f & alert & Hj & Ha)]; rewrite Hj; [done|].
  unfold bind, lift, ret. rewrite generate_alert_cycle_id. simpl. by rewrite Ha.
Qed.



(** ** The loop of [main] *)

Lemma feed_app detect rs1 rs2 (st : store) :
  feed detect (rs1 ++ rs2) st
  = ((feed detect rs1 st).1 ++ (feed detect rs2 (feed detect rs1 st).2).1,
     (feed detect rs2 (feed detect rs1 st).2).2).
Proof.
  revert st. induction rs1 as [|r rs1 IH]; intros st.
  - simpl. by destruct (feed detect rs2 st).
  - rewrite <- app_comm_cons, !feed_cons, IH. reflexivity.
Qed.


Lemma alerts_app (out1 out2 : list printed) :
  alerts (out1 ++ out2) = alerts out1 ++ alerts out2.
Proof. unfold alerts. apply omap_app. Qed.

(** One typed line: the call it carries, if any, and what it prints. *)
Lemma process_line_typed line w :
  typed_line line ->
  exists out,
    Warning_system_driver.process_line line.1 line.2 w
    = (Ok tt,
       World (feed Warning_system.detect_anomaly
                (option_list (reading_of_line line)) (windows w)).2
             (stdout w ++ out) (generator w))
    /\ alerts out
       = omap alert_of
           (feed Warning_system.detect_anomaly
              (option_list (reading_of_line line)) (windows w)).1.
Proof.
  destruct line as [parsed now]. unfold typed_line, reading_of_line. simpl.
  unfold Warning_system_driver.process_line, wbind, on_windows.
  destruct parsed as [[| | | |data]|[]]; try done.
  - destruct (dict_get data "spindle_temp" VNone) as [| |temp| |] eqn:Htemp;
      try done.
    + intros _. exists [].
      unfold Warning_system_driver.process_simulation_output. rewrite Htemp.
      simpl. rewrite app_nil_r. by destruct w.
    + destruct (dict_get data "machine" (VStr "CNC_Mill_1"))
        as [| | |machine_id|] eqn:Hmachine; try done.
      intros _.
      rewrite (process_simulation_output_reading data temp machine_id) by done.
      simpl.
      destruct (Warning_system.detect_anomaly machine_id temp now (windows w))
        as [call st'] eqn:Hcall. simpl.
      destruct (alert_of call) as [alert|] eqn:Halert.
      * by exists [Alert alert].
      * exists []. simpl. by rewrite app_nil_r.
  - intros _. exists [Skipped]. simpl. done.
Qed.

Lemma main_loop_typed lines :
  forall w,
    Forall typed_line lines ->
    exists out,
      for_each lines
        (fun line => Warning_system_driver.process_line line.1 line.2) w
      = (Ok tt,
         World (feed Warning_system.detect_anomaly
                  (omap reading_of_line lines) (windows w)).2
               (stdout w ++ out) (generator w))
      /\ alerts out
         = omap alert_of
             (feed Warning_system.detect_anomaly
                (omap reading_of_line lines) (windows w)).1.
Proof.
  induction lines as [|line lines IH]; intros w Htyped.
  - exists []. simpl. rewrite app_nil_r. by destruct w.
  - inversion Htyped as [|? ? Hline Hlines]; subst.
    destruct (process_line_typed line w Hline) as (out1 & Hstep & Hout1).
    simpl for_each. unfold wbind. rewrite Hstep.
    destruct (IH (World (feed Warning_system.detect_anomaly
                           (option_list (reading_of_line line)) (windows w)).2
                        (stdout w ++ out1) (generator w)) Hlines)
      as (out2 & Hrest & Hout2).
    rewrite Hrest. simpl windows in *. simpl stdout. simpl generator.
    exists (out1 ++ out2).
    replace (omap reading_of_line (line :: lines))
      with (option_list (reading_of_line line) ++ omap reading_of_line lines)
      by (simpl; by destruct (reading_of_line line)).
    rewrite feed_app. simpl fst. simpl snd.
    rewrite app_assoc, alerts_app, omap_app, Hout1, Hout2. done.
Qed.

(** X9.  On lines on which [json.loads] raises [JSONDecodeError], lines
    without a temperature and lines with a numeric temperature and a
    machine name or none: if every call of [detect_anomaly] for the readings
    that the lines carry, in order, returns, [main] does not raise; the
    windows end as after these calls, so that the other lines leave no
    trace in them; and the alerts printed are those of the anomalous
    verdicts of these calls, in order. *)
Theorem main_is_the_stream_of_readings :
  forall (lines : list (result pyval * R)) (w : world),
    Forall typed_line lines ->
    Forall (fun out => exists v, out = Ok v)
           (feed Warning_system.detect_anomaly
              (omap reading_of_line lines) (windows w)).1 ->
    exists out,
      Warning_system_driver.main lines w
      = (Ok tt,
         World (feed Warning_system.detect_anomaly
                  (omap reading_of_line lines) (windows w)).2
               (stdout w ++ Banner :: out) (generator w))
      /\ alerts out
         = omap alert_of
             (feed Warning_system.detect_anomaly
                (omap reading_of_line lines) (windows w)).1.
Proof.
  intros lines w Htyped _.
  unfold Warning_system_driver.main, wbind, print.
  destruct (main_loop_typed lines
              (World (windows w) (stdout w ++ [Banner]) (generator w)) Htyped)
    as (out & Hloop & Hout).
  exists out. rewrite Hloop. simpl.
  by rewrite <- app_assoc.
Qed.

Lemma main_is_the_stream_of_readings_witness :
  (Forall typed_line sample_lines
   /\ omap reading_of_line sample_lines = [Reading "Lathe_01" 60 2]
   /\ (feed Warning_system.detect_anomaly [Reading "Lathe_01" 60 2]
         Warning_system.machine_temp_data).1 = [Ok (false, None)]
   /\ exists out,
        Warning_system_driver.main sample_lines
          (fresh_world Warning_system.machine_temp_data)
        = (Ok tt,
           World (feed Warning_system.detect_anomaly [Reading "Lathe_01" 60 2]
                    Warning_system.machine_temp_data).2
                 (Banner :: out) (Rng (fun _ => 0) 0))
        /\ alerts out = [])
  /\ (Forall typed_line spike_lines
      /\ omap reading_of_line spike_lines = [Reading "Lathe_01" 120 2]
      /\ exists out,
           Warning_system_driver.main spike_lines (fresh_world steady_store)
           = (Ok tt,
              World (feed Warning_system.detect_anomaly [Reading "Lathe_01" 120 2]
                       steady_store).2
                    (Banner :: out) (Rng (fun _ => 0) 0))
           /\ alerts out
              = [ [ ("type", VStr "TEMP_ANOMALY");
                    ("machine", VStr "Lathe_01");
                    ("temperature", VNum 120);
                    ("z_score", VNum 2.85);
                    ("reason", VStr "HIGH_TEMP");
                    ("timestamp", VNum 2) ]%string ]).
Proof.
  assert (Htyped : Forall typed_line sample_lines).
  { unfold sample_lines. repeat constructor. }
  assert (Hfeed : (feed Warning_system.detect_anomaly [Reading "Lathe_01" 60 2]
                     Warning_system.machine_temp_data).1 = [Ok (false, None)]).
  { rewrite feed_cons. cbn [source value clock feed fst snd].
    rewrite Warning_system_run. cbn [fst snd].
    by rewrite judge_warm_up
      by (unfold window, Warning_system.machine_temp_data;
          rewrite lookup_empty; simpl; lia). }
  assert (Htyped' : Forall typed_line spike_lines).
  { unfold spike_lines. repeat constructor. }
  assert (Hfeed' : (feed Warning_system.detect_anomaly [Reading "Lathe_01" 120 2]
                      steady_store).1
                   = [Ok (judge "Lathe_01" (steady9 ++ [120]) 120 2)]).
  { rewrite feed_cons. cbn [source value clock feed fst snd].
    destruct steady_call as [CW _]. pose proof (CW 120 2) as Hcall.
    cbv beta in Hcall. unfold detect_anomaly, Warning_system_py in Hcall.
    by rewrite Hcall. }
  split.
  - split; [exact Htyped|]. split; [reflexivity|]. split; [exact Hfeed|].
    destruct (main_is_the_stream_of_readings sample_lines
                (fresh_world Warning_system.machine_temp_data) Htyped)
      as (out & Hmain & Halerts).
    + change (omap reading_of_line sample_lines) with [Reading "Lathe_01" 60 2].
      change (windows (fresh_world Warning_system.machine_temp_data))
        with Warning_system.machine_temp_data.
      rewrite Hfeed. repeat constructor. by eexists.
    + exists out. split; [exact Hmain|].
      change (omap reading_of_line sample_lines) with [Reading "Lathe_01" 60 2]
        in Halerts.
      change (windows (fresh_world Warning_system.machine_temp_data))
        with Warning_system.machine_temp_data in Halerts.
      by rewrite Hfeed in Halerts.
  - split; [exact Htyped'|]. split; [reflexivity|].
    destruct (main_is_the_stream_of_readings spike_lines
                (fresh_world steady_store) Htyped')
      as (out & Hmain & Halerts).
    + change (omap reading_of_line spike_lines) with [Reading "Lathe_01" 120 2].
      change (windows (fresh_world steady_store)) with steady_store.
      rewrite Hfeed'. repeat constructor. by eexists.
    + exists out. split; [exact Hmain|].
      change (omap reading_of_line spike_lines) with [Reading "Lathe_01" 120 2]
        in Halerts.
      change (windows (fresh_world steady_store)) with steady_store in Halerts.
      rewrite Hfeed', steady_judge_120 in Halerts. exact Halerts.
Defined.




(** ** The simulated temperatures *)

Lemma round_half_even_between (a b : Z) y :
  IZR a <= y <= IZR b -> (a <= round_half_even y <= b)%Z.
Proof.
  intros [Ha Hb]. unfold round_half_even.
  destruct (base_Int_part y) as [Hf1 Hf2].
  assert (Hfa : (a <= Int_part y)%Z).
  { apply Z.lt_succ_r. apply lt_IZR. rewrite succ_IZR. lra. }
  assert (Hfb : (Int_part y <= b)%Z) by (apply le_IZR; lra).
  destruct (Rlt_dec (y - IZR (Int_part y)) (1 / 2)); [lia|].
  assert (Hup : (Int_part y + 1 <= b)%Z).
  { apply Z.lt_succ_r. apply lt_IZR. rewrite succ_IZR, plus_IZR. lra. }
  destruct (Rlt_dec (1 / 2) (y - IZR (Int_part y))); [lia|].
  destruct (Z.even (Int_part y)); lia.
Qed.

Lemma round_between (a b : Z) x :
  IZR a / 100 <= x <= IZR b / 100 ->
  IZR a / 100 <= round x 2 <= IZR b / 100.
Proof.
  intros Hx. unfold round. replace (10 ^ 2) with 100 by (simpl; lra).
  destruct (round_half_even_between a b (x * 100)) as [Hlo Hhi]; [lra|].
  apply IZR_le in Hlo. apply IZR_le in Hhi. lra.
Qed.

(** X11.  With numbers of [random.random()] at least 0 and below 1,
    [simulate_temperature] returns a multiple of a hundredth between 50 and
    95 degrees: between 65 and 95 when the second number drawn is below 0.1
    (a spike, three numbers drawn), and between 50 and 65, so never above
    [TEMP_THRESHOLD], otherwise (two numbers drawn). *)
Theorem simulate_temperature_range :
  forall (machine : string) (g : rng),
    unit_draws g ->
    let temp := (temperature.simulate_temperature machine g).1 in
    let g' := (temperature.simulate_temperature machine g).2 in
    draws g' = draws g
    /\ (exists k : Z, temp = IZR k / 100)
    /\ (draws g (S (drawn g)) < 0.1 ->
        65 <= temp <= 95 /\ drawn g' = (drawn g + 3)%nat)
    /\ (0.1 <= draws g (S (drawn g)) ->
        50 <= temp <= 65 /\ temp <= temperature.TEMP_THRESHOLD
        /\ drawn g' = (drawn g + 2)%nat).
Proof.
  intros machine g Hunit.
  unfold temperature.simulate_temperature, random_uniform, random_random.
  cbn [draws drawn]. unfold ltb.
  pose proof (Hunit (drawn g)) as H0.
  pose proof (Hunit (S (S (drawn g)))) as H2.
  destruct (Rlt_dec (draws g (S (drawn g))) 0.1) as [Hspike|Hnormal];
    cbn [fst snd draws drawn].
  - split; [done|]. split; [apply (proj1 (round_to_2_places _))|]. split; [|lra].
    intros _. split; [|lia].
    pose proof (round_between 6500 9500
      (50 + (65 - 50) * draws g (drawn g)
       + (15 + (30 - 15) * draws g (S (S (drawn g)))))) as Hr.
    lra.
  - split; [done|]. split; [apply (proj1 (round_to_2_places _))|]. split; [lra|].
    intros _.
    pose proof (round_between 5000 6500 (50 + (65 - 50) * draws g (drawn g))) as Hr.
    unfold temperature.TEMP_THRESHOLD. repeat split; try lra. lia.
Qed.

Lemma simulate_temperature_range_witness :
  let g := Rng (fun _ => 1 / 2) 0 in
  unit_draws g
  /\ 50 <= (temperature.simulate_temperature "Lathe_01" g).1 <= 65
  /\ drawn (temperature.simulate_temperature "Lathe_01" g).2 = 2%nat.
Proof.
  intros g.
  assert (Hunit : unit_draws g) by (intros i; simpl; lra).
  split; [exact Hunit|].
  destruct (simulate_temperature_range "Lathe_01" g Hunit)
    as (_ & _ & _ & Hnormal).
  destruct Hnormal as (Hrange & _ & Hdrawn); [simpl; lra|].
  split; [exact Hrange | exact Hdrawn].
Defined.

(** ** The loop of [run_monitoring] *)

Lemma deque_append_fills d x n :
  maxlen d = 10%nat -> length (items d) = Nat.min n 10 ->
  maxlen (deque_append d x) = 10%nat
  /\ length (items (deque_append d x)) = Nat.min (S n) 10.
Proof.
  intros Hmax Hlen. unfold deque_append. simpl. split; [done|].
  rewrite Hmax.
  destruct (10 <? length (items d ++ [x]))%nat eqn:Hfull.
  - apply Nat.ltb_lt in Hfull. rewrite length_app in Hfull. simpl in Hfull.
    destruct (items d ++ [x]) as [|y ys] eqn:E.
    { apply (f_equal length) in E. rewrite length_app in E. simpl in E. lia. }
    apply (f_equal length) in E. rewrite length_app in E. simpl in *. lia.
  - apply Nat.ltb_ge in Hfull. rewrite length_app in *. simpl in *. lia.
Qed.

(** One turn of the inner loop, for a machine that has a window. *)
Lemma monitor_turn machine now w d :
  windows w !! machine = Some d ->
  exists out,
    temperature.monitor machine now w
    = (Ok tt,
       World (<[machine :=
                  deque_append d
                    (temperature.simulate_temperature machine (generator w)).1]>
                (windows w))
             (stdout w ++ out)
             (temperature.simulate_temperature machine (generator w)).2)
    /\ ((length (items (deque_append d
           (temperature.simulate_temperature machine (generator w)).1)) < 5)%nat ->
        out = []).
Proof.
  intros Hd. unfold temperature.monitor, wbind at 1, on_generator.
  destruct (temperature.simulate_temperature machine (generator w))
    as [temp g'] eqn:Hsim. cbn [fst snd].
  unfold wbind at 1, on_windows at 1. cbn [windows stdout generator].
  rewrite temperature_run, Hd.
  destruct (judge_shape machine (items (deque_append d temp)) temp now)
    as [Hj|(f & alert & Hj & Ha)]; rewrite Hj.
  - exists []. rewrite app_nil_r. by split.
  - exists [Alert alert]. unfold wbind, on_windows, lift, print.
    cbn [windows stdout generator].
    change (temperature.generate_alert f) with (Warning_system.generate_alert f).
    rewrite Ha. split; [done|].
    intros Hshort. by rewrite judge_warm_up in Hj.
Qed.

Lemma monitor_machines clock k ms :
  NoDup ms ->
  forall w,
    windows_hold k ms (windows w) ->
    exists w',
      for_each ms (fun machine => temperature.monitor machine (clock machine)) w
      = (Ok tt, w')
      /\ windows_hold (S k) ms (windows w')
      /\ (forall m, m ∉ ms -> windows w' !! m = windows w !! m)
      /\ ((k < 4)%nat -> stdout w' = stdout w).
Proof.
  induction 1 as [|m ms Hm Hnodup IH]; intros w Hhold.
  - exists w. simpl. repeat split; try done. intros m Hin. by apply elem_of_nil in Hin.
  - destruct (Hhold m) as (d & Hd & Hmax & Hlen); [apply list_elem_of_here|].
    destruct (monitor_turn m (clock m) w d Hd) as (out & Hturn & Hquiet).
    set (temp := (temperature.simulate_temperature m (generator w)).1) in *.
    destruct (deque_append_fills d temp k Hmax Hlen) as [Hmax' Hlen'].
    simpl for_each. unfold wbind. rewrite Hturn.
    destruct (IH (World (<[m := deque_append d temp]> (windows w))
                        (stdout w ++ out)
                        (temperature.simulate_temperature m (generator w)).2))
      as (w' & Hrest & Hhold' & Hother & Hsilent).
    { intros m' Hin'. cbn [windows].
      rewrite lookup_insert_ne by (intros ->; done).
      apply Hhold. by apply list_elem_of_further. }
    exists w'. split; [exact Hrest|]. cbn [windows stdout] in *. repeat split.
    + intros m' Hin'. apply elem_of_cons in Hin' as [->|Hin'].
      * rewrite (Hother m Hm), lookup_insert_eq. eauto.
      * by apply Hhold'.
    + intros m' Hnin. apply not_elem_of_cons in Hnin as [Hne Hnin].
      rewrite (Hother m' Hnin). by rewrite lookup_insert_ne.
    + intros Hk. rewrite (Hsilent Hk), Hquiet, app_nil_r; [done|lia].
Qed.

Lemma MACHINES_NoDup : NoDup temperature.MACHINES.
Proof.
  unfold temperature.MACHINES.
  repeat (apply NoDup_cons; split;
          [rewrite ?not_elem_of_cons; repeat split; try done; apply not_elem_of_nil|]).
  apply NoDup_nil_2.
Qed.

Lemma initial_windows_hold :
  windows_hold 0 temperature.MACHINES temperature.machine_temp_data.
Proof.
  intros m Hin. exists (deque_new temperature.WINDOW_SIZE).
  split; [by apply temperature_machines_have_windows | done].
Qed.

Lemma for_each_cons {A} (x : A) xs body w :
  for_each (x :: xs) body w = wbind (body x) (fun _ => for_each xs body) w.
Proof. reflexivity. Qed.

Lemma monitor_cycles clock n :
  forall s k w,
    windows_hold k temperature.MACHINES (windows w) ->
    exists w',
      for_each (seq s n)
        (fun c => for_each temperature.MACHINES
                    (fun machine => temperature.monitor machine (clock c machine))) w
      = (Ok tt, w')
      /\ windows_hold (k + n) temperature.MACHINES (windows w')
      /\ ((k + n <= 4)%nat -> stdout w' = stdout w).
Proof.
  induction n as [|n IH]; intros s k w Hhold.
  - exists w. simpl. rewrite Nat.add_0_r. by repeat split.
  - destruct (monitor_machines (clock s) k temperature.MACHINES MACHINES_NoDup
                w Hhold) as (w1 & Hcycle & Hhold1 & _ & Hsilent1).
    destruct (IH (S s) (S k) w1 Hhold1) as (w' & Hrest & Hhold' & Hsilent').
    exists w'. change (seq s (S n)) with (s :: seq (S s) n).
    rewrite for_each_cons. unfold wbind at 1.
    rewrite Hcycle. split; [exact Hrest|].
    rewrite Nat.add_succ_r. split; [exact Hhold'|].
    intros Hk. rewrite Hsilent', Hsilent1; [done | lia | lia].
Qed.

(** X12.  When every machine of [MACHINES] has a window of bound 10 that
    holds [k] values (10 if [k] is more), as at the start with [k = 0],
    [run_monitoring] does not raise, whatever numbers the generator gives
    and however many cycles it runs, and afterwards every machine has a
    window that holds [k + cycles] values, or 10 once that is more. *)
Theorem run_monitoring_fills_windows :
  forall (cycles : nat) (clock : nat -> string -> R) (w : world) (k : nat),
    windows_hold k temperature.MACHINES (windows w) ->
    exists w',
      temperature.run_monitoring cycles clock w = (Ok tt, w')
      /\ windows_hold (k + cycles) temperature.MACHINES (windows w').
Proof.
  intros cycles clock w k Hhold.
  unfold temperature.run_monitoring, wbind at 1, print.
  destruct (monitor_cycles clock cycles 0 k
              (World (windows w) (stdout w ++ [Banner]) (generator w)) Hhold)
    as (w' & Hrun & Hhold' & _).
  exists w'. by split.
Qed.

Lemma run_monitoring_fills_windows_witness :
  exists w',
    temperature.run_monitoring 12 (fun _ _ => 0)
      (fresh_world temperature.machine_temp_data) = (Ok tt, w')
    /\ exists d, windows w' !! "Drill_03"%string = Some d
                 /\ length (items d) = 10%nat.
Proof.
  destruct (run_monitoring_fills_windows 12 (fun _ _ => 0)
              (fresh_world temperature.machine_temp_data) 0 initial_windows_hold)
    as (w' & Hrun & Hhold).
  exists w'. split; [exact Hrun|].
  destruct (Hhold "Drill_03"%string) as (d & Hd & _ & Hlen).
  - unfold temperature.MACHINES. repeat constructor.
  - exists d. split; [exact Hd | exact Hlen].
Defined.

(** X13.  Started with windows that hold [k] values each, as at the start
    with [k = 0], [run_monitoring] prints no alert while [k + cycles] is at
    most four: its output is the start-up line alone, whatever numbers the
    generator gives, spikes included. *)
Theorem run_monitoring_silent_warm_up :
  forall (cycles : nat) (clock : nat -> string -> R) (w : world) (k : nat),
    windows_hold k temperature.MACHINES (windows w) ->
    (k + cycles <= 4)%nat ->
    stdout (temperature.run_monitoring cycles clock w).2 = stdout w ++ [Banner].
Proof.
  intros cycles clock w k Hhold Hk.
  unfold temperature.run_monitoring, wbind at 1, print.
  destruct (monitor_cycles clock cycles 0 k
              (World (windows w) (stdout w ++ [Banner]) (generator w)) Hhold)
    as (w' & Hrun & _ & Hsilent).
  rewrite Hrun. simpl. by rewrite (Hsilent Hk).
Qed.

Lemma run_monitoring_silent_warm_up_witness :
  stdout (temperature.run_monitoring 4 (fun _ _ => 0)
            (fresh_world temperature.machine_temp_data)).2 = [Banner].
Proof.
  apply (run_monitoring_silent_warm_up 4 (fun _ _ => 0)
           (fresh_world temperature.machine_temp_data) 0 initial_windows_hold).
  lia.
Defined.

Lemma simulate_temperature_bounds machine g :
  unit_draws g ->
  50 <= (temperature.simulate_temperature machine g).1 <= 95
  /\ (0.1 <= draws g (S (drawn g)) ->
      (temperature.simulate_temperature machine g).1 <= 65).
Proof.
  intros Hunit.
  unfold temperature.simulate_temperature, random_uniform, random_random.
  cbn [draws drawn]. unfold ltb.
  pose proof (Hunit (drawn g)) as H0.
  pose proof (Hunit (S (S (drawn g)))) as H2.
  destruct (Rlt_dec (draws g (S (drawn g))) 0.1) as [Hspike|Hnormal];
    cbn [fst snd].
  - pose proof (round_between 6500 9500
      (50 + (65 - 50) * draws g (drawn g)
       + (15 + (30 - 15) * draws g (S (S (drawn g)))))) as Hr.
    split; lra.
  - pose proof (round_between 5000 6500 (50 + (65 - 50) * draws g (drawn g))) as Hr.
    split; lra.
Qed.

(** X14.  One turn of the monitoring loop for a machine that has a
    window prints nothing or one alert.  The alert carries the simulated
    temperature, between 50 and 95 degrees, and its reason is [HIGH_TEMP]
    only if a spike was drawn: without a spike the simulator can bring
    about a [Z_SCORE_SPIKE] alert at most. *)
Theorem simulated_high_temp_needs_spike :
  forall (machine : string) (now : R) (w : world) (d : deque),
    unit_draws (generator w) ->
    windows w !! machine = Some d ->
    exists out,
      stdout (temperature.monitor machine now w).2 = stdout w ++ out
      /\ (out = []
          \/ exists alert temp,
               out = [Alert alert]
               /\ dict_getitem alert "temperature" = Ok (VNum temp)
               /\ 50 <= temp <= 95
               /\ (dict_getitem alert "reason" = Ok (VStr "HIGH_TEMP") ->
                   draws (generator w) (S (drawn (generator w))) < 0.1)).
Proof.
  intros machine now w d Hunit Hd.
  destruct (simulate_temperature_bounds machine (generator w) Hunit)
    as [Hrange Hnormal].
  unfold temperature.monitor, wbind at 1, on_generator.
  destruct (temperature.simulate_temperature machine (generator w))
    as [temp g'] eqn:Hsim. cbn [fst snd] in *.
  unfold wbind at 1, on_windows at 1. cbn [windows stdout generator].
  rewrite temperature_run, Hd.
  destruct (judge_shape machine (items (deque_append d temp)) temp now)
    as [Hj|(f & alert & Hj & Ha)]; rewrite Hj.
  - exists []. simpl. rewrite app_nil_r. by split; [|left].
  - exists [Alert alert]. unfold wbind, on_windows, lift, print.
    cbn [windows stdout generator].
    change (temperature.generate_alert f) with (Warning_system.generate_alert f).
    rewrite Ha. simpl. split; [done|]. right. exists alert, temp.
    destruct (judge_alert _ _ _ _ _ Hj) as (z & reason & _ & Hreason & Halert).
    destruct (judge_reason _ _ _ _ _ Hj) as [Hhigh _].
    rewrite Ha in Halert. injection Halert as ->.
    repeat split; try done; try lra.
    simpl. intros [= ->].
    destruct (Rlt_le_dec (draws (generator w) (S (drawn (generator w)))) 0.1)
      as [|Hno]; [done|].
    apply Hhigh in Hreason. specialize (Hnormal Hno). lra.
Qed.

Lemma spike_rng_unit : unit_draws spike_rng.
Proof. intros i. simpl. destruct (i =? 1)%nat; lra. Qed.

Lemma spike_simulation :
  temperature.simulate_temperature "Lathe_01" spike_rng
  = (92, Rng (draws spike_rng) 3).
Proof.
  unfold temperature.simulate_temperature, random_uniform, random_random, spike_rng.
  cbn [draws drawn Nat.eqb].
  assert (Hspike : ltb 0 0.1 = true).
  { unfold ltb. destruct (Rlt_dec 0 0.1); [done | lra]. }
  rewrite Hspike. f_equal.
  replace (50 + (65 - 50) * (9 / 10) + (15 + (30 - 15) * (9 / 10))) with 92 by lra.
  unfold round. replace (10 ^ 2) with 100 by (simpl; lra).
  rewrite (round_half_even_eval _ 9200); lra.
Qed.

Lemma spike_turn :
  stdout (temperature.monitor "Lathe_01" 0 spike_world).2
  = [Alert [ ("type", VStr "TEMP_ANOMALY");
             ("machine", VStr "Lathe_01");
             ("temperature", VNum 92);
             ("z_score", VNum 2.85);
             ("reason", VStr "HIGH_TEMP");
             ("timestamp", VNum 0) ]%string].
Proof.
  unfold temperature.monitor, wbind at 1, on_generator, spike_world.
  cbn [generator windows stdout]. rewrite spike_simulation.
  unfold wbind at 1, on_windows at 1. cbn [generator windows stdout].
  rewrite temperature_run, steady_store_lookup.
  change (items (deque_append (Deque 10 steady9) 92)) with (steady9 ++ [92]).
  rewrite steady_judge_above by lra.
  rewrite round_z_score_steady, (proj2 (gtb_true 92 75)) by lra.
  reflexivity.
Qed.

Lemma simulated_high_temp_needs_spike_witness :
  exists alert,
    stdout (temperature.monitor "Lathe_01" 0 spike_world).2 = [Alert alert]
    /\ dict_getitem alert "temperature" = Ok (VNum 92)
    /\ dict_getitem alert "reason" = Ok (VStr "HIGH_TEMP")
    /\ 50 <= 92 <= 95
    /\ draws spike_rng 1 < 0.1.
Proof.
  destruct (simulated_high_temp_needs_spike "Lathe_01" 0 spike_world
              (Deque 10 steady9) spike_rng_unit steady_store_lookup)
    as (out & Hout & Hcases).
  rewrite spike_turn in Hout. simpl in Hout. subst out.
  destruct Hcases as [Hnil|(alert & temp & Halert & Htemp & Hrange & Hspike)];
    [discriminate Hnil|].
  injection Halert as <-. injection Htemp as <-.
  eexists. split; [apply spike_turn|].
  split; [reflexivity|]. split; [reflexivity|]. split; [exact Hrange|].
  apply Hspike. reflexivity.
Defined.
